(** * Items service: cache / store coherence of the HTTP handlers

    Shallow embedding of [main.go]: the [Item] entity, the process-wide
    [cache] map, the five handlers and the [itemsHandler] router, together
    with the small part of the Go runtime they call ([strconv.ParseInt],
    [encoding/json] on [Item], [net/http]'s response writer, [database/sql]
    statements).  The relational store is an external collaborator: every
    statement a handler sends is an event answered by an arbitrary oracle, so
    each theorem holds for every behaviour of the database. *)

From Stdlib Require Import ZArith Lia Bool Ascii String List.
From Stdlib Require Import Decimal DecimalString DecimalFacts DecimalPos DecimalN DecimalZ.
From stdpp Require Import base option gmap.
Import ListNotations.

Local Open Scope string_scope.
Local Open Scope Z_scope.

(** ** Go runtime: [strconv] *)

Module strconv.

(** A Go [byte] read as an unsigned number. *)
Definition byte (c : ascii) : Z := Z.of_N (N_of_ascii c).

(** [lower(c)]: [c | ('x' - 'X')]. *)
Definition lower (c : Z) : Z := Z.lor c 32.

(** The [Err] field of a [*NumError]. *)
Inductive NumError := ErrSyntax | ErrRange | ErrBase | ErrBitSize.

Definition maxUint64 : Z := 2 ^ 64 - 1.
Definition uint64 (z : Z) : Z := z mod 2 ^ 64.

(** Go's [s[i:]]. *)
Fixpoint drop (i : nat) (s : string) : string :=
  match i, s with
  | O, _ => s
  | S i', String _ s' => drop i' s'
  | S _, EmptyString => EmptyString
  end.

(** Go's [s[i]] for an index known to be in range ([0] otherwise, which
    no caller below relies on). *)
Definition at_ (s : string) (i : nat) : Z :=
  match String.get i s with
  | Some c => byte c
  | None => 0
  end.

Definition len (s : string) : Z := Z.of_nat (String.length s).

(** The value of one character as a digit, [None] when it is neither a
    decimal digit nor a letter. *)
Definition digit_val (c : Z) : option Z :=
  if (byte "0" <=? c) && (c <=? byte "9") then Some (c - byte "0")
  else if (byte "a" <=? lower c) && (lower c <=? byte "z")
       then Some (lower c - byte "a" + 10)
       else None.

(** What the digit loop of [ParseUint] ends with. *)
Inductive loop_result :=
| LoopDone (n : Z) (underscores : bool)
| LoopSyntax
| LoopRange.

(** [for _, c := range []byte(s) { ... }] of [ParseUint]. *)
Fixpoint digit_loop (base0 : bool) (base cutoff maxVal : Z)
         (s : string) (n : Z) (underscores : bool) : loop_result :=
  match s with
  | EmptyString => LoopDone n underscores
  | String ch s' =>
      let c := byte ch in
      if (c =? byte "_") && base0
      then digit_loop base0 base cutoff maxVal s' n true
      else match digit_val c with
           | None => LoopSyntax
           | Some d =>
               if d >=? base then LoopSyntax
               else if n >=? cutoff then LoopRange
               else let n0 := uint64 (n * base) in
                    let n1 := uint64 (n0 + d) in
                    if (n1 <? n0) || (n1 >? maxVal) then LoopRange
                    else digit_loop base0 base cutoff maxVal s' n1 underscores
           end
  end.

(** The last kind of character [underscoreOK] saw. *)
Inductive saw_t := SawStart | SawDigit | SawUnderscore | SawOther.

Definition is_sign (c : Z) : bool := (c =? byte "-") || (c =? byte "+").

Definition is_base_letter (c : Z) : bool :=
  (lower c =? byte "b") || (lower c =? byte "o") || (lower c =? byte "x").

Fixpoint underscore_scan (hex : bool) (s : string) (saw : saw_t) : bool :=
  match s with
  | EmptyString =>
      match saw with SawUnderscore => false | _ => true end
  | String ch s' =>
      let c := byte ch in
      if ((byte "0" <=? c) && (c <=? byte "9"))
         || (hex && (byte "a" <=? lower c) && (lower c <=? byte "f"))
      then underscore_scan hex s' SawDigit
      else if c =? byte "_"
      then match saw with
           | SawDigit => underscore_scan hex s' SawUnderscore
           | _ => false
           end
      else match saw with
           | SawUnderscore => false
           | _ => underscore_scan hex s' SawOther
           end
  end.

(** [underscoreOK]: underscores only between digits or after a base prefix. *)
Definition underscoreOK (s : string) : bool :=
  let s := if (1 <=? len s) && is_sign (at_ s 0) then drop 1 s else s in
  if (2 <=? len s) && (at_ s 0 =? byte "0") && is_base_letter (at_ s 1)
  then underscore_scan (lower (at_ s 1) =? byte "x") (drop 2 s) SawDigit
  else underscore_scan false s SawStart.

(** [ParseUint(s, base, bitSize)]: the value and the error. *)
Definition ParseUint (s : string) (base bitSize : Z) : Z * option NumError :=
  if String.eqb s "" then (0, Some ErrSyntax)
  else
    let base0 := base =? 0 in
    let s0 := s in
    let prefixed :=
      if (2 <=? base) && (base <=? 36) then Some (base, s)
      else if base0 then
        if at_ s 0 =? byte "0" then
          if (3 <=? len s) && (lower (at_ s 1) =? byte "b") then Some (2, drop 2 s)
          else if (3 <=? len s) && (lower (at_ s 1) =? byte "o") then Some (8, drop 2 s)
          else if (3 <=? len s) && (lower (at_ s 1) =? byte "x") then Some (16, drop 2 s)
          else Some (8, drop 1 s)
        else Some (10, s)
      else None in
    match prefixed with
    | None => (0, Some ErrBase)
    | Some (base, s) =>
        if (bitSize <? 0) || (bitSize >? 64) then (0, Some ErrBitSize)
        else
          let bitSize := if bitSize =? 0 then 64 else bitSize in
          let cutoff := maxUint64 / base + 1 in
          let maxVal := uint64 (uint64 (2 ^ bitSize) - 1) in
          match digit_loop base0 base cutoff maxVal s 0 false with
          | LoopSyntax => (0, Some ErrSyntax)
          | LoopRange => (maxVal, Some ErrRange)
          | LoopDone n underscores =>
              if underscores && negb (underscoreOK s0)
              then (0, Some ErrSyntax)
              else (n, None)
          end
    end.

(** [ParseInt(s, base, bitSize)]: the value and the error.  A syntax error
    yields [0]; a range error yields the nearest bound of the bit size. *)
Definition ParseInt (s : string) (base bitSize : Z) : Z * option NumError :=
  if String.eqb s "" then (0, Some ErrSyntax)
  else
    let s0 := s in
    let '(neg, s) :=
      if at_ s 0 =? byte "+" then (false, drop 1 s)
      else if at_ s 0 =? byte "-" then (true, drop 1 s)
      else (false, s) in
    let '(un, err) := ParseUint s base bitSize in
    match err with
    | Some ErrRange | None =>
        let bitSize := if bitSize =? 0 then 64 else bitSize in
        let cutoff := 2 ^ (bitSize - 1) in
        if negb neg && (un >=? cutoff) then (cutoff - 1, Some ErrRange)
        else if neg && (un >? cutoff) then (- cutoff, Some ErrRange)
        else (if neg then - un else un, None)
    | Some e => (0, Some e)
    end.

(** [strconv.Itoa] / [FormatInt(n, 10)]: the canonical decimal rendering. *)
Definition FormatInt (n : Z) : string := NilZero.string_of_int (Z.to_int n).

End strconv.

(** ** The entity *)

(** [type Item struct { ID int; Title string }]; Go's [int] is 64 bits wide
    and no handler computes with it. *)
Record Item := mkItem { ID : Z; Title : string }.

(** [var item Item]: the zero value. *)
Definition zero_Item : Item := {| ID := 0; Title := "" |}.

(** ** Go runtime: errors *)

(** The error values a handler can meet.  Only [sql.ErrNoRows] is ever
    told apart from the others ([errors.Is]); the text of [err.Error()] is
    kept symbolic. *)
Inductive error :=
| sql_ErrNoRows
| json_SyntaxError (msg : string)
| json_UnmarshalTypeError (Value Field : string)
| driver_Error (msg : string).

Definition is_ErrNoRows (err : error) : bool :=
  match err with sql_ErrNoRows => true | _ => false end.

(** ** Go runtime: [encoding/json] *)

Module json.

(** A JSON document.  [Int] is a number literal without fraction or
    exponent, [Float] any other number literal (kept as written). *)
#[warnings="-register-all"] Inductive Value :=
| Null
| Bool (b : bool)
| Int (n : Z)
| Float (lit : string)
| Str (s : string)
| Array (elems : list Value)
| Object (members : list (string * Value)).

(** What a request body holds for [Decoder.Decode]: a first JSON value,
    or bytes that are not one (also the empty body). *)
Inductive Body :=
| Malformed (err : error)
| Document (v : Value).

(** ASCII case folding of a member name.  The fields of [Item] are matched
    exactly or case-insensitively, and no letter outside ASCII folds to a
    letter of [id] or [title]. *)
Definition fold_byte (c : ascii) : ascii :=
  let n := N_of_ascii c in
  if ((65 <=? n) && (n <=? 90))%N then ascii_of_N (n + 32) else c.

Fixpoint foldName (s : string) : string :=
  match s with
  | EmptyString => EmptyString
  | String c s' => String (fold_byte c) (foldName s')
  end.

Definition kind (v : Value) : string :=
  match v with
  | Null => "null"
  | Bool _ => "bool"
  | Int n => "number " ++ strconv.FormatInt n
  | Float lit => "number " ++ lit
  | Str _ => "string"
  | Array _ => "array"
  | Object _ => "object"
  end.

Definition int64_ok (n : Z) : bool := (- 2 ^ 63 <=? n) && (n <? 2 ^ 63).

(** Storing one member into the struct: [null] leaves the field as it is,
    a value of the wrong kind is an [UnmarshalTypeError], a member that
    names no field is skipped. *)
Definition store_member (item : Item) (key : string) (v : Value) : error + Item :=
  if String.eqb (foldName key) "id" then
    match v with
    | Null => inr item
    | Int n => if int64_ok n then inr {| ID := n; Title := Title item |}
               else inl (json_UnmarshalTypeError (kind v) "id")
    | _ => inl (json_UnmarshalTypeError (kind v) "id")
    end
  else if String.eqb (foldName key) "title" then
    match v with
    | Null => inr item
    | Str s => inr {| ID := ID item; Title := s |}
    | _ => inl (json_UnmarshalTypeError (kind v) "title")
    end
  else inr item.

(** The members are stored in order; the first type error is remembered
    and returned at the end, the later members are still visited. *)
Fixpoint store_members (item : Item) (saved : option error)
         (members : list (string * Value)) : error + Item :=
  match members with
  | [] => match saved with Some err => inl err | None => inr item end
  | (key, v) :: rest =>
      match store_member item key v with
      | inr item' => store_members item' saved rest
      | inl err =>
          store_members item (match saved with Some e => Some e | None => Some err end) rest
      end
  end.

(** [Unmarshal] of a value into an [Item]. *)
Definition Unmarshal (v : Value) (item : Item) : error + Item :=
  match v with
  | Null => inr item
  | Object members => store_members item None members
  | _ => inl (json_UnmarshalTypeError (kind v) "")
  end.

(** [json.NewDecoder(r.Body).Decode(&item)]. *)
Definition Decode (b : Body) (item : Item) : error + Item :=
  match b with
  | Malformed err => inl err
  | Document v => Unmarshal v item
  end.

(** [Marshal] of an [Item], with its [json] tags. *)
Definition of_Item (item : Item) : Value :=
  Object [("id", Int (ID item)); ("title", Str (Title item))].

(** [Marshal] of a [[]Item]: a nil slice is [null], any other an array. *)
Definition of_Items (items : option (list Item)) : Value :=
  match items with
  | None => Null
  | Some l => Array (map of_Item l)
  end.

End json.

(** ** Go slices of items *)

(** A [[]Item] is nil ([None]) or holds its elements; [make([]Item, 0)] is
    empty and not nil. *)
Definition make_Items : option (list Item) := Some [].

Definition append (items : option (list Item)) (item : Item) : option (list Item) :=
  match items with
  | None => Some [item]
  | Some l => Some (l ++ [item])%list
  end.

(** ** Go runtime: [net/http] *)

Definition StatusOK : Z := 200.
Definition StatusCreated : Z := 201.
Definition StatusBadRequest : Z := 400.
Definition StatusNotFound : Z := 404.
Definition StatusMethodNotAllowed : Z := 405.
Definition StatusInternalServerError : Z := 500.

Definition MethodGet : string := "GET".
Definition MethodPost : string := "POST".
Definition MethodPut : string := "PUT".
Definition MethodDelete : string := "DELETE".

(** A line of text sent by [http.Error]: a literal of the program or the
    text of an error. *)
Inductive text :=
| Literal (s : string)
| ErrorString (err : error).

(** What is written to the response body, one entry per write. *)
Inductive chunk :=
| Line (t : text)
| Json (v : json.Value).

(** The [http.ResponseWriter] of one request: the status line once it is
    sent, and the body written so far. *)
Record ResponseWriter := mkWriter { status : option Z; body : list chunk }.

Definition new_ResponseWriter : ResponseWriter := {| status := None; body := [] |}.

(** [w.WriteHeader(code)]: the first call decides the status. *)
Definition writeHeader (code : Z) (w : ResponseWriter) : ResponseWriter :=
  match status w with
  | Some _ => w
  | None => {| status := Some code; body := body w |}
  end.

(** [w.Write]: sends [200] first when no status was sent yet. *)
Definition write (c : chunk) (w : ResponseWriter) : ResponseWriter :=
  let w := writeHeader StatusOK w in
  {| status := status w; body := (body w ++ [c])%list |}.

(** [r *http.Request]: the method, the parsed query string in the order of
    the URL, and the body. *)
Record Request := mkRequest {
  Method : string;
  URL_Query : list (string * string);
  Body : json.Body
}.

(** [r.URL.Query().Get(key)]: the first value of the key, [""] without one. *)
Fixpoint Query_Get (q : list (string * string)) (key : string) : string :=
  match q with
  | [] => ""
  | (k, v) :: rest => if String.eqb k key then v else Query_Get rest key
  end.

(** ** Go runtime: [database/sql] *)

(** An argument bound to a placeholder, with the Go type it is passed at. *)
Inductive Arg :=
| ArgString (s : string)
| ArgInt64 (n : Z).

(** The statements the handlers send, by the call and the scan targets. *)
Inductive Stmt :=
| QueryRow_ScanID (query : string) (args : list Arg)
| QueryRow_ScanItem (query : string) (args : list Arg)
| Query (query : string) (args : list Arg)
| Exec (query : string) (args : list Arg).

(** [*sql.Rows]: for each row [rows.Next()] delivers, what [rows.Scan] gives;
    and [rows.Err()], the error that ended the iteration early, if any. *)
Record Rows := mkRows {
  rows_scans : list (error + Item);
  rows_Err : option error
}.

(** What a statement yields when it succeeds: the scanned id, the scanned
    row, the row cursor, the number of rows affected. *)
Definition Result (s : Stmt) : Type :=
  match s with
  | QueryRow_ScanID _ _ => Z
  | QueryRow_ScanItem _ _ => Item
  | Query _ _ => Rows
  | Exec _ _ => Z
  end.

(** A handler as a tree of store statements: it returns, or sends a
    statement and goes on with the store's answer. *)
Inductive Prog (A : Type) : Type :=
| Ret (a : A)
| Call (s : Stmt) (k : error + Result s -> Prog A).

Arguments Ret {A} a.
Arguments Call {A} s k.

Fixpoint Prog_bind {A B : Type} (p : Prog A) (f : A -> Prog B) : Prog B :=
  match p with
  | Ret a => f a
  | Call s k => Call s (fun x => Prog_bind (k x) f)
  end.

(** ** The process state and the handler monad *)

(** [var cache = make(map[int]Item)] and the writer of the request served. *)
Record State := mkState { cache : gmap Z Item; w : ResponseWriter }.

(** A handler action: reads and updates the state, may consult the store. *)
Definition M (A : Type) : Type := State -> Prog (A * State).

#[global] Instance M_ret : MRet M := fun A a st => Ret (a, st).
#[global] Instance M_bind : MBind M :=
  fun A B f m st => Prog_bind (m st) (fun '(a, st') => f a st').

Definition db_call (s : Stmt) : M (error + Result s) :=
  fun st => Call s (fun x => Ret (x, st)).

Definition modify (f : State -> State) : M unit := fun st => Ret (tt, f st).

(** [http.Error(w, msg, code)]. *)
Definition http_Error (msg : text) (code : Z) : M unit :=
  modify (fun st => {| cache := cache st; w := write (Line msg) (writeHeader code (w st)) |}).

Definition WriteHeader (code : Z) : M unit :=
  modify (fun st => {| cache := cache st; w := writeHeader code (w st) |}).

(** [json.NewEncoder(w).Encode(v)]. *)
Definition Encode (v : json.Value) : M unit :=
  modify (fun st => {| cache := cache st; w := write (Json v) (w st) |}).

(** [cacheMutex]: requests are served one at a time here, so taking the
    lock always succeeds at once. *)
Definition cacheMutex_Lock : M unit := mret tt.
Definition cacheMutex_Unlock : M unit := mret tt.
Definition cacheMutex_RLock : M unit := mret tt.
Definition cacheMutex_RUnlock : M unit := mret tt.

(** [v, found := cache[k]] *)
Definition cache_get (k : Z) : M (option Item) := fun st => Ret (cache st !! k, st).

(** [cache[k] = v] *)
Definition cache_set (k : Z) (v : Item) : M unit :=
  modify (fun st => {| cache := <[k := v]> (cache st); w := w st |}).

(** [delete(cache, k)] *)
Definition cache_delete (k : Z) : M unit :=
  modify (fun st => {| cache := delete k (cache st); w := w st |}).

(** ** The handlers *)

Definition createItem (r : Request) : M unit :=
  match json.Decode (Body r) zero_Item with
  | inl err => http_Error (ErrorString err) StatusBadRequest
  | inr item =>
      let query := "INSERT INTO items (title) VALUES ($1) RETURNING id" in
      res ← db_call (QueryRow_ScanID query [ArgString (Title item)]);
      match res with
      | inl err => http_Error (ErrorString err) StatusInternalServerError
      | inr id =>
          let item := {| ID := id; Title := Title item |} in
          cacheMutex_Lock;;
          cache_set (ID item) item;;
          cacheMutex_Unlock;;
          WriteHeader StatusCreated;;
          Encode (json.of_Item item)
      end
  end.

Definition getItem (r : Request) : M unit :=
  let id := Query_Get (URL_Query r) "id" in
  let '(idInt, _) := strconv.ParseInt id 0 32 in
  cacheMutex_RLock;;
  found ← cache_get idInt;
  cacheMutex_RUnlock;;
  match found with
  | Some itemFromCache => Encode (json.of_Item itemFromCache)
  | None =>
      let query := "SELECT id, title FROM items WHERE id=$1" in
      res ← db_call (QueryRow_ScanItem query [ArgString id]);
      match res with
      | inl err =>
          if is_ErrNoRows err
          then http_Error (Literal "Item not found") StatusNotFound
          else http_Error (ErrorString err) StatusInternalServerError
      | inr item =>
          cacheMutex_Lock;;
          cache_set (ID item) item;;
          cacheMutex_Unlock;;
          Encode (json.of_Item item)
      end
  end.

(** [for rows.Next() { ... rows.Scan(...) ... items = append(items, item) }]:
    a failed scan leaves the loop with its error; when [rows.Next()] gives
    no further row the loop ends, whatever ended the iteration. *)
Fixpoint scan_rows (pending : list (error + Item)) (items : option (list Item))
  : error + option (list Item) :=
  match pending with
  | [] => inr items
  | inl err :: _ => inl err
  | inr item :: rest => scan_rows rest (append items item)
  end.

Definition getItems (r : Request) : M unit :=
  res ← db_call (Query "SELECT id, title FROM items" []);
  match res with
  | inl err => http_Error (ErrorString err) StatusInternalServerError
  | inr rows =>
      match scan_rows (rows_scans rows) make_Items with
      | inl err => http_Error (ErrorString err) StatusInternalServerError
      | inr items => Encode (json.of_Items items)
      end
  end.

Definition updateItem (r : Request) : M unit :=
  let id := Query_Get (URL_Query r) "id" in
  match json.Decode (Body r) zero_Item with
  | inl err => http_Error (ErrorString err) StatusBadRequest
  | inr item =>
      let query := "UPDATE items SET title = $1 WHERE id = $2" in
      res ← db_call (Exec query [ArgString (Title item); ArgString id]);
      match res with
      | inl err => http_Error (ErrorString err) StatusInternalServerError
      | inr _ =>
          cacheMutex_Lock;;
          cache_set (ID item) item;;
          cacheMutex_Unlock;;
          WriteHeader StatusOK;;
          Encode (json.Str "Item updated successfully")
      end
  end.

Definition deleteItem (r : Request) : M unit :=
  let query := "DELETE FROM items WHERE id = $1" in
  let '(id, _) := strconv.ParseInt (Query_Get (URL_Query r) "id") 0 32 in
  res ← db_call (Exec query [ArgInt64 id]);
  match res with
  | inl err => http_Error (ErrorString err) StatusInternalServerError
  | inr _ =>
      cacheMutex_Lock;;
      cache_delete id;;
      cacheMutex_Unlock;;
      WriteHeader StatusOK;;
      Encode (json.Str "Item deleted successfully")
  end.

Definition itemsHandler (r : Request) : M unit :=
  let id := Query_Get (URL_Query r) "id" in
  if String.eqb (Method r) MethodPost then createItem r
  else if String.eqb (Method r) MethodGet then
    if String.eqb id "" then getItems r else getItem r
  else if String.eqb (Method r) MethodPut then updateItem r
  else if String.eqb (Method r) MethodDelete then deleteItem r
  else http_Error (Literal "Method not Allowed") StatusMethodNotAllowed.

(** ** Serving one request against a store *)

(** The store of one request: any answer to any statement. *)
Definition Store := forall s : Stmt, error + Result s.

(** The outcome of a request: what the client receives, the cache the
    process is left with, and the statements sent to the store, in order. *)
Record Outcome := mkOutcome {
  response : ResponseWriter;
  cache_after : gmap Z Item;
  sent : list Stmt
}.

Fixpoint run {A : Type} (db : Store) (p : Prog A) : A * list Stmt :=
  match p with
  | Ret a => (a, [])
  | Call s k => let '(a, l) := run db (k (db s)) in (a, s :: l)
  end.

Definition serve (db : Store) (h : Request -> M unit) (r : Request)
           (c : gmap Z Item) : Outcome :=
  let '((_, st), l) := run db (h r {| cache := c; w := new_ResponseWriter |}) in
  {| response := w st; cache_after := cache st; sent := l |}.

(** ** Requests and stores used in the examples *)

Definition POST (b : json.Body) : Request :=
  {| Method := "POST"; URL_Query := []; Body := b |}.
Definition GET (id : string) : Request :=
  {| Method := "GET"; URL_Query := [("id", id)]; Body := json.Malformed (json_SyntaxError "EOF") |}.
Definition GET_all : Request :=
  {| Method := "GET"; URL_Query := []; Body := json.Malformed (json_SyntaxError "EOF") |}.
Definition PUT (id : string) (b : json.Body) : Request :=
  {| Method := "PUT"; URL_Query := [("id", id)]; Body := b |}.
Definition DELETE (id : string) : Request :=
  {| Method := "DELETE"; URL_Query := [("id", id)]; Body := json.Malformed (json_SyntaxError "EOF") |}.

Definition title_body (t : string) : json.Body :=
  json.Document (json.Object [("title", json.Str t)]).

(** A store without rows whose next generated id is [next]. *)
Definition empty_store (next : Z) : Store :=
  fun s =>
    match s with
    | QueryRow_ScanID _ _ => inr next
    | QueryRow_ScanItem _ _ => inl sql_ErrNoRows
    | Query _ _ => inr {| rows_scans := []; rows_Err := None |}
    | Exec _ _ => inr 0
    end.

(** A store that cannot be reached. *)
Definition down_store : Store := fun s => inl (driver_Error "connection refused").

(** A store with one row, which reports how many rows a statement on the
    id [7] or on any other id affects. *)
Definition one_row_store : Store :=
  fun s =>
    match s with
    | QueryRow_ScanID _ _ => inr 8
    | QueryRow_ScanItem _ [ArgString "7"] => inr {| ID := 7; Title := "seven" |}
    | QueryRow_ScanItem _ _ => inl sql_ErrNoRows
    | Query _ _ => inr {| rows_scans := [inr {| ID := 7; Title := "seven" |}]; rows_Err := None |}
    | Exec _ [ArgInt64 7] | Exec _ [_; ArgString "7"] => inr 1
    | Exec _ _ => inr 0
    end.

(** A store whose cursor breaks after the first of its rows. *)
Definition broken_cursor_store : Store :=
  fun s =>
    match s with
    | Query _ _ =>
        inr {| rows_scans := [inr {| ID := 1; Title := "first" |}];
               rows_Err := Some (driver_Error "connection reset") |}
    | s => one_row_store s
    end.

(** ** The schema of the store *)

(** Modelled from the spec: the table [items] is created outside this
    program, and its schema is not part of the sources; the store's ids are the
    values of an [integer] primary key column, which in PostgreSQL is 32
    bits wide.  [ParseInt] is called with the same bit size. *)
Definition pg_integer (n : Z) : bool := (- 2 ^ 31 <=? n) && (n <? 2 ^ 31).

(** ** Statements, responses and routes, as the properties name them *)

Definition insert_query : string := "INSERT INTO items (title) VALUES ($1) RETURNING id".
Definition select_query : string := "SELECT id, title FROM items WHERE id=$1".
Definition select_all_query : string := "SELECT id, title FROM items".
Definition update_query : string := "UPDATE items SET title = $1 WHERE id = $2".
Definition delete_query : string := "DELETE FROM items WHERE id = $1".

(** The response of [http.Error] on a fresh writer. *)
Definition error_response (msg : text) (code : Z) : ResponseWriter :=
  {| status := Some code; body := [Line msg] |}.

(** The response of an optional [WriteHeader] and one [Encode] on a fresh writer. *)
Definition json_response (code : Z) (v : json.Value) : ResponseWriter :=
  {| status := Some code; body := [Json v] |}.

(** Whether the router sends the request to [getItem]. *)
Definition single_read (r : Request) : bool :=
  String.eqb (Method r) MethodGet && negb (String.eqb (Query_Get (URL_Query r) "id") "").

(** The routes of the router; they cover every request. *)
Inductive route (r : Request) : Type :=
| RouteCreate (_ : Method r = MethodPost)
| RouteReadAll (_ : Method r = MethodGet) (_ : Query_Get (URL_Query r) "id" = "")
| RouteRead (_ : Method r = MethodGet) (_ : Query_Get (URL_Query r) "id" <> "")
| RouteUpdate (_ : Method r = MethodPut)
| RouteDelete (_ : Method r = MethodDelete)
| RouteNone (_ : Method r <> MethodPost) (_ : Method r <> MethodGet)
            (_ : Method r <> MethodPut) (_ : Method r <> MethodDelete).

(** ** The value of a decimal rendering *)

(** The number a digit sequence denotes after the digits already read. *)
Fixpoint horner (d : uint) (acc : Z) : Z :=
  match d with
  | Nil => acc
  | D0 d => horner d (10 * acc + 0)
  | D1 d => horner d (10 * acc + 1)
  | D2 d => horner d (10 * acc + 2)
  | D3 d => horner d (10 * acc + 3)
  | D4 d => horner d (10 * acc + 4)
  | D5 d => horner d (10 * acc + 5)
  | D6 d => horner d (10 * acc + 6)
  | D7 d => horner d (10 * acc + 7)
  | D8 d => horner d (10 * acc + 8)
  | D9 d => horner d (10 * acc + 9)
  end.

(** Unfolds the monad of the handlers down to the tree of statements. *)
Ltac unfold_M :=
  unfold db_call, http_Error, WriteHeader, Encode, cache_get, cache_set,
    cache_delete, cacheMutex_Lock, cacheMutex_Unlock, cacheMutex_RLock,
    cacheMutex_RUnlock, modify, mbind, mret, M_bind, M_ret;
  cbn [run Prog_bind].

(** ** The cache over several requests *)

(** Every entry is stored under the id it carries. *)
Definition keyed_by_id (c : gmap Z Item) : Prop :=
  map_Forall (fun k v => ID v = k) c.

(** The process serving requests one after the other, each against the
    store as it answers then. *)
Fixpoint serve_all (reqs : list (Store * Request)) (c : gmap Z Item) : gmap Z Item :=
  match reqs with
  | [] => c
  | (db, r) :: rest => serve_all rest (cache_after (serve db itemsHandler r c))
  end.

(** Whether a member names a field of [Item] with a value of another JSON
    kind than the field takes. *)
Definition wrong_kind (key : string) (v : json.Value) : bool :=
  if String.eqb (json.foldName key) "id" then
    match v with
    | json.Null => false
    | json.Int n => negb (json.int64_ok n)
    | _ => true
    end
  else if String.eqb (json.foldName key) "title" then
    match v with
    | json.Null | json.Str _ => false
    | _ => true
    end
  else false.

(** ** The handlers before the cache *)

(** The second source file: the same service with one path per handler and
    no cache. *)
Module part_000.

Definition createItem (r : Request) : M unit :=
  match json.Decode (Body r) zero_Item with
  | inl err => http_Error (ErrorString err) StatusBadRequest
  | inr item =>
      let query := "INSERT INTO items (title) VALUES ($1) RETURNING id" in
      res ← db_call (QueryRow_ScanID query [ArgString (Title item)]);
      match res with
      | inl err => http_Error (ErrorString err) StatusInternalServerError
      | inr id =>
          let item := {| ID := id; Title := Title item |} in
          WriteHeader StatusCreated;;
          Encode (json.of_Item item)
      end
  end.

Definition getItem (r : Request) : M unit :=
  let id := Query_Get (URL_Query r) "id" in
  let query := "SELECT id, title FROM items WHERE id=$1" in
  res ← db_call (QueryRow_ScanItem query [ArgString id]);
  match res with
  | inl err =>
      if is_ErrNoRows err
      then http_Error (Literal "Item not found") StatusNotFound
      else http_Error (ErrorString err) StatusInternalServerError
  | inr item => Encode (json.of_Item item)
  end.

Definition updateItem (r : Request) : M unit :=
  let id := Query_Get (URL_Query r) "id" in
  match json.Decode (Body r) zero_Item with
  | inl err => http_Error (ErrorString err) StatusBadRequest
  | inr item =>
      let query := "UPDATE items SET title = $1 WHERE id = $2" in
      res ← db_call (Exec query [ArgString (Title item); ArgString id]);
      match res with
      | inl err => http_Error (ErrorString err) StatusInternalServerError
      | inr _ =>
          WriteHeader StatusOK;;
          Encode (json.Str "Item updated successfully")
      end
  end.

Definition deleteItem (r : Request) : M unit :=
  let query := "DELETE FROM items WHERE id = $1" in
  let id := Query_Get (URL_Query r) "id" in
  res ← db_call (Exec query [ArgString id]);
  match res with
  | inl err => http_Error (ErrorString err) StatusInternalServerError
  | inr _ =>
      WriteHeader StatusOK;;
      Encode (json.Str "Item deleted successfully")
  end.

End part_000.

(** ** Process start *)

(** What the process does to the outside at start, in order. *)
Inductive effect :=
| Open (driverName dataSourceName : string)
| Ping
| Println (args : list string)
| Fatal (err : error)
| HandleFunc (pattern : string) (handler : Request -> M unit)
| Getenv (key : string)
| ListenAndServe (addr : string).

(** How a run goes on: the function returned, the process exited
    ([log.Fatal] exits with status 1), or it stays in [ListenAndServe]. *)
Inductive ending (A : Type) :=
| Returned (a : A)
| Exited (code : Z)
| Serving.

Arguments Returned {A} a.
Arguments Exited {A} code.
Arguments Serving {A}.

Record Run (A : Type) := mkRun { trace : list effect; result : ending A }.

Arguments mkRun {A} trace result.
Arguments trace {A} r.
Arguments result {A} r.

#[global] Instance Run_ret : MRet Run := fun A a => {| trace := []; result := Returned a |}.













(** * Properties *)

(** ** Decimal renderings parse back *)

Module strconv_facts.
Import strconv.

Lemma horner_ge d : forall acc, 0 <= acc -> acc <= horner d acc.
Proof.
  induction d; intros acc Hacc; simpl; try lia;
    match goal with
    | |- _ <= horner _ ?a => specialize (IHd a); lia
    end.
Qed.

Lemma of_uint_acc_horner d :
  forall acc, Z.pos (Pos.of_uint_acc d acc) = horner d (Z.pos acc).
Proof.
  induction d; intros acc; simpl; try reflexivity; rewrite IHd; f_equal; lia.
Qed.

Lemma of_uint_horner d : Z.of_N (Pos.of_uint d) = horner d 0.
Proof.
  induction d; simpl; try reflexivity; try assumption;
    rewrite of_uint_acc_horner; reflexivity.
Qed.

Lemma to_uint_horner p : horner (Pos.to_uint p) 0 = Z.pos p.
Proof.
  rewrite <- of_uint_horner, DecimalPos.Unsigned.of_to. reflexivity.
Qed.

(** One turn of the digit loop on a decimal digit that fits. *)
Lemma digit_loop_digit cutoff maxVal ch k s n u :
  (byte ch =? byte "_") = false ->
  digit_val (byte ch) = Some k ->
  0 <= k < 10 -> 0 <= n -> 10 * n + k <= maxVal ->
  maxVal < cutoff -> maxVal < 2 ^ 32 ->
  digit_loop true 10 cutoff maxVal (String ch s) n u
  = digit_loop true 10 cutoff maxVal s (10 * n + k) u.
Proof.
  intros Hund Hdig Hk Hn Hfit Hcut Hmax.
  cbn [digit_loop]. rewrite Hund, Hdig. cbn [andb].
  rewrite !Z.geb_leb, Z.gtb_ltb. unfold uint64.
  rewrite (Z.mod_small (n * 10)) by lia.
  rewrite (Z.mod_small (n * 10 + k)) by lia.
  destruct (Z.leb_spec 10 k); [lia |].
  destruct (Z.leb_spec cutoff n); [lia |].
  destruct (Z.ltb_spec (n * 10 + k) (n * 10)); [lia |].
  destruct (Z.ltb_spec maxVal (n * 10 + k)); [lia |].
  cbn [orb]. f_equal. lia.
Qed.

(** The digit loop on a decimal rendering, as long as the value fits. *)
Lemma digit_loop_decimal cutoff maxVal d :
  forall n u,
    0 <= n -> horner d n <= maxVal -> maxVal < cutoff -> maxVal < 2 ^ 32 ->
    digit_loop true 10 cutoff maxVal (NilEmpty.string_of_uint d) n u
    = LoopDone (horner d n) u.
Proof.
  induction d; intros n u Hn Hfit Hcut Hmax; simpl NilEmpty.string_of_uint;
    [reflexivity | ..]; simpl in Hfit;
    match type of Hfit with
    | horner _ (10 * n + ?k) <= _ =>
        pose proof (horner_ge d (10 * n + k) ltac:(lia));
        rewrite (digit_loop_digit cutoff maxVal _ k) by (reflexivity || lia);
        rewrite IHd by lia; reflexivity
    end.
Qed.

(** A positive number is rendered without a leading zero. *)
Lemma to_uint_head p :
  exists ch s, NilEmpty.string_of_uint (Pos.to_uint p) = String ch s
               /\ (byte ch =? byte "0") = false
               /\ (byte ch =? byte "+") = false
               /\ (byte ch =? byte "-") = false.
Proof.
  assert (Hfix : unorm (Pos.to_uint p) = Pos.to_uint p).
  { rewrite <- DecimalPos.Unsigned.to_of, DecimalPos.Unsigned.of_to. reflexivity. }
  pose proof (DecimalPos.Unsigned.to_uint_nonzero p) as Hnz.
  destruct (Pos.to_uint p) as [|d|d|d|d|d|d|d|d|d|d] eqn:E;
    try (simpl; eexists _, _; repeat split; reflexivity).
  - discriminate Hfix.
  - exfalso. rewrite unorm_D0 in Hfix.
    destruct d as [|d|d|d|d|d|d|d|d|d|d];
      [ apply Hnz; reflexivity
      | match type of Hfix with
        | unorm ?u = _ =>
            pose proof (nb_digits_unorm u ltac:(discriminate)) as Hlen;
            rewrite Hfix in Hlen; simpl in Hlen; lia
        end .. ].
Qed.

Lemma maxVal32 : uint64 (uint64 (2 ^ 32) - 1) = 4294967295.
Proof. vm_compute. reflexivity. Qed.

(** [ParseUint(s, 0, 32)] on a string that is not empty and does not start
    with [0]: base ten, and the digit loop decides. *)
Lemma ParseUint_base0_32 s :
  String.eqb s "" = false -> (at_ s 0 =? byte "0") = false ->
  ParseUint s 0 32 =
    match digit_loop true 10 (maxUint64 / 10 + 1) (uint64 (uint64 (2 ^ 32) - 1)) s 0 false with
    | LoopSyntax => (0, Some ErrSyntax)
    | LoopRange => (uint64 (uint64 (2 ^ 32) - 1), Some ErrRange)
    | LoopDone n underscores =>
        if underscores && negb (underscoreOK s) then (0, Some ErrSyntax) else (n, None)
    end.
Proof.
  intros H1 H2. unfold ParseUint. rewrite H1, H2. reflexivity.
Qed.

Lemma ParseUint_decimal p :
  Z.pos p < 2 ^ 32 ->
  ParseUint (NilEmpty.string_of_uint (Pos.to_uint p)) 0 32 = (Z.pos p, None).
Proof.
  intros Hp.
  destruct (to_uint_head p) as (ch & s & E & Hzero & _ & _).
  rewrite ParseUint_base0_32.
  - rewrite digit_loop_decimal.
    + rewrite to_uint_horner. reflexivity.
    + lia.
    + rewrite to_uint_horner, maxVal32. lia.
    + vm_compute. reflexivity.
    + vm_compute. reflexivity.
  - rewrite E. reflexivity.
  - rewrite E. exact Hzero.
Qed.

Lemma FormatInt_pos p :
  FormatInt (Z.pos p) = NilEmpty.string_of_uint (Pos.to_uint p).
Proof.
  destruct (to_uint_head p) as (ch & s & E & _).
  unfold FormatInt. cbn [Z.to_int NilZero.string_of_int NilZero.string_of_uint].
  destruct (Pos.to_uint p); try reflexivity. discriminate E.
Qed.

Lemma FormatInt_neg p :
  FormatInt (Z.neg p) = String "-" (NilEmpty.string_of_uint (Pos.to_uint p)).
Proof.
  destruct (to_uint_head p) as (ch & s & E & _).
  unfold FormatInt. cbn [Z.to_int NilZero.string_of_int NilZero.string_of_uint].
  destruct (Pos.to_uint p); try reflexivity. discriminate E.
Qed.

(** [ParseInt] reads back the decimal rendering of every 32-bit integer. *)
Lemma ParseInt_FormatInt n :
  - 2 ^ 31 <= n < 2 ^ 31 -> ParseInt (FormatInt n) 0 32 = (n, None).
Proof.
  intros Hn. destruct n as [|p|p]; [vm_compute; reflexivity | ..].
  - pose proof (ParseUint_decimal p ltac:(lia)) as HU.
    destruct (to_uint_head p) as (ch & s & E & _ & Hplus & Hminus).
    rewrite FormatInt_pos. unfold ParseInt. rewrite E in *.
    cbn [String.eqb at_ String.get]. rewrite Hplus, Hminus, HU.
    cbv beta iota. cbn [negb andb Z.eqb].
    destruct (Z.geb_spec (Z.pos p) (2 ^ (32 - 1))); [lia | reflexivity].
  - pose proof (ParseUint_decimal p ltac:(lia)) as HU.
    rewrite FormatInt_neg. unfold ParseInt.
    cbn [String.eqb at_ String.get drop].
    replace (byte "-" =? byte "+") with false by reflexivity.
    replace (byte "-" =? byte "-") with true by reflexivity.
    cbv beta iota. rewrite HU.
    cbv beta iota. cbn [negb andb Z.eqb].
    destruct (Z.gtb_spec (Z.pos p) (2 ^ (32 - 1))); [lia | reflexivity].
Qed.

Lemma FormatInt_nonempty n : FormatInt n <> "".
Proof.
  destruct n as [|p|p]; [discriminate | | rewrite FormatInt_neg; discriminate].
  rewrite FormatInt_pos.
  destruct (to_uint_head p) as (ch & s & E & _). rewrite E. discriminate.
Qed.

(** A syntax error of [ParseInt] comes with the value [0], a range error
    with a bound of the bit size. *)
Lemma ParseInt_error_value s k e :
  ParseInt s 0 32 = (k, Some e) ->
  (e = ErrSyntax -> k = 0) /\ (e = ErrRange -> k = 2 ^ 31 - 1 \/ k = - 2 ^ 31).
Proof.
  unfold ParseInt. destruct (String.eqb s "").
  - intros [= <- <-]. split; [reflexivity | discriminate].
  - destruct (if at_ s 0 =? byte "+" then _ else _) as [neg s'].
    destruct (ParseUint s' 0 32) as [un [[] |]]; cbv beta iota;
      try (intros [= <- <-]; split; [reflexivity | discriminate]).
    + destruct (negb neg && _); [| destruct (neg && _)];
        intros [= <- <-]; split; try discriminate; intros _; [left | right]; reflexivity.
    + destruct (negb neg && _); [| destruct (neg && _)];
        intros [= <- E]; try discriminate;
        subst; split; try discriminate; intros _; [left | right]; reflexivity.
Qed.

End strconv_facts.

(** ** What each handler does, case by case *)

Lemma serve_createItem db r c :
  serve db createItem r c =
    match json.Decode (Body r) zero_Item with
    | inl err =>
        {| response := error_response (ErrorString err) StatusBadRequest;
           cache_after := c; sent := [] |}
    | inr item =>
        let s := QueryRow_ScanID insert_query [ArgString (Title item)] in
        match db s with
        | inl err =>
            {| response := error_response (ErrorString err) StatusInternalServerError;
               cache_after := c; sent := [s] |}
        | inr id =>
            let item := {| ID := id; Title := Title item |} in
            {| response := json_response StatusCreated (json.of_Item item);
               cache_after := <[id := item]> c; sent := [s] |}
        end
    end.
Proof.
  unfold serve, createItem.
  destruct (json.Decode (Body r) zero_Item) as [err | item]; [reflexivity |].
  unfold_M. unfold insert_query. cbv zeta.
  destruct (db _) as [err | id]; reflexivity.
Qed.

Lemma serve_getItem db r c :
  serve db getItem r c =
    let id := Query_Get (URL_Query r) "id" in
    match c !! (strconv.ParseInt id 0 32).1 with
    | Some itemFromCache =>
        {| response := json_response StatusOK (json.of_Item itemFromCache);
           cache_after := c; sent := [] |}
    | None =>
        let s := QueryRow_ScanItem select_query [ArgString id] in
        match db s with
        | inl err =>
            {| response :=
                 if is_ErrNoRows err
                 then error_response (Literal "Item not found") StatusNotFound
                 else error_response (ErrorString err) StatusInternalServerError;
               cache_after := c; sent := [s] |}
        | inr item =>
            {| response := json_response StatusOK (json.of_Item item);
               cache_after := <[ID item := item]> c; sent := [s] |}
        end
    end.
Proof.
  unfold serve, getItem. cbv zeta.
  destruct (strconv.ParseInt _ 0 32) as [idInt e]. unfold_M. cbn [fst cache].
  destruct (c !! idInt) as [itemFromCache |]; [reflexivity |].
  unfold_M. unfold select_query.
  destruct (db _) as [err | item]; [destruct err |]; reflexivity.
Qed.

Lemma serve_getItems db r c :
  serve db getItems r c =
    let s := Query select_all_query [] in
    {| response :=
         match db s with
         | inl err => error_response (ErrorString err) StatusInternalServerError
         | inr rows =>
             match scan_rows (rows_scans rows) make_Items with
             | inl err => error_response (ErrorString err) StatusInternalServerError
             | inr items => json_response StatusOK (json.of_Items items)
             end
         end;
       cache_after := c; sent := [s] |}.
Proof.
  unfold serve, getItems. unfold_M. unfold select_all_query. cbv zeta.
  destruct (db _) as [err | rows]; [reflexivity |].
  destruct (scan_rows _ _); reflexivity.
Qed.

Lemma serve_updateItem db r c :
  serve db updateItem r c =
    let id := Query_Get (URL_Query r) "id" in
    match json.Decode (Body r) zero_Item with
    | inl err =>
        {| response := error_response (ErrorString err) StatusBadRequest;
           cache_after := c; sent := [] |}
    | inr item =>
        let s := Exec update_query [ArgString (Title item); ArgString id] in
        match db s with
        | inl err =>
            {| response := error_response (ErrorString err) StatusInternalServerError;
               cache_after := c; sent := [s] |}
        | inr _ =>
            {| response := json_response StatusOK (json.Str "Item updated successfully");
               cache_after := <[ID item := item]> c; sent := [s] |}
        end
    end.
Proof.
  unfold serve, updateItem. cbv zeta.
  destruct (json.Decode (Body r) zero_Item) as [err | item]; [reflexivity |].
  unfold_M. unfold update_query.
  destruct (db _) as [err | n]; reflexivity.
Qed.

Lemma serve_deleteItem db r c :
  serve db deleteItem r c =
    let id := (strconv.ParseInt (Query_Get (URL_Query r) "id") 0 32).1 in
    let s := Exec delete_query [ArgInt64 id] in
    match db s with
    | inl err =>
        {| response := error_response (ErrorString err) StatusInternalServerError;
           cache_after := c; sent := [s] |}
    | inr _ =>
        {| response := json_response StatusOK (json.Str "Item deleted successfully");
           cache_after := delete id c; sent := [s] |}
    end.
Proof.
  unfold serve, deleteItem. cbv zeta.
  destruct (strconv.ParseInt _ 0 32) as [id e]. unfold_M. cbn [fst].
  unfold delete_query. destruct (db _) as [err | n]; reflexivity.
Qed.

(** ** The router, route by route *)

Lemma itemsHandler_POST r : Method r = MethodPost -> itemsHandler r = createItem r.
Proof. intros H. unfold itemsHandler. rewrite H. reflexivity. Qed.

Lemma itemsHandler_GET_all r :
  Method r = MethodGet -> Query_Get (URL_Query r) "id" = "" ->
  itemsHandler r = getItems r.
Proof. intros H Hid. unfold itemsHandler. rewrite H, Hid. reflexivity. Qed.

Lemma itemsHandler_GET_one r :
  Method r = MethodGet -> Query_Get (URL_Query r) "id" <> "" ->
  itemsHandler r = getItem r.
Proof.
  intros H Hid. unfold itemsHandler. rewrite H. cbn [String.eqb].
  destruct (String.eqb_spec (Query_Get (URL_Query r) "id") ""); [contradiction | reflexivity].
Qed.

Lemma itemsHandler_PUT r : Method r = MethodPut -> itemsHandler r = updateItem r.
Proof. intros H. unfold itemsHandler. rewrite H. reflexivity. Qed.

Lemma itemsHandler_DELETE r : Method r = MethodDelete -> itemsHandler r = deleteItem r.
Proof. intros H. unfold itemsHandler. rewrite H. reflexivity. Qed.

Lemma itemsHandler_other r :
  Method r <> MethodPost -> Method r <> MethodGet ->
  Method r <> MethodPut -> Method r <> MethodDelete ->
  itemsHandler r = http_Error (Literal "Method not Allowed") StatusMethodNotAllowed.
Proof.
  intros H1 H2 H3 H4. unfold itemsHandler.
  destruct (String.eqb_spec (Method r) MethodPost); [contradiction |].
  destruct (String.eqb_spec (Method r) MethodGet); [contradiction |].
  destruct (String.eqb_spec (Method r) MethodPut); [contradiction |].
  destruct (String.eqb_spec (Method r) MethodDelete); [contradiction |].
  reflexivity.
Qed.

(** Serving through the router is serving through the handler it picks. *)
Lemma serve_route db h h' r c : h r = h' r -> serve db h r c = serve db h' r c.
Proof. unfold serve. intros ->. reflexivity. Qed.

Lemma route_of (r : Request) : route r.
Proof.
  destruct (String.eqb_spec (Method r) MethodPost); [now apply RouteCreate |].
  destruct (String.eqb_spec (Method r) MethodGet).
  { destruct (String.eqb_spec (Query_Get (URL_Query r) "id") "");
      [now apply RouteReadAll | now apply RouteRead]. }
  destruct (String.eqb_spec (Method r) MethodPut); [now apply RouteUpdate |].
  destruct (String.eqb_spec (Method r) MethodDelete); [now apply RouteDelete |].
  now apply RouteNone.
Qed.

(** ** Helper facts on decoding and on the row loop *)

Lemma pg_integer_range n : pg_integer n = true -> - 2 ^ 31 <= n < 2 ^ 31.
Proof. unfold pg_integer. intros H. apply andb_prop in H as [H1 H2]. lia. Qed.

Lemma store_member_ID item key v item' :
  json.foldName key <> "id" ->
  json.store_member item key v = inr item' -> ID item' = ID item.
Proof.
  intros Hkey. unfold json.store_member.
  destruct (String.eqb_spec (json.foldName key) "id"); [contradiction |].
  destruct (String.eqb (json.foldName key) "title").
  - destruct v; intros [= <-]; reflexivity.
  - intros [= <-]; reflexivity.
Qed.

(** A body without an [id] member leaves the id of the struct as it was. *)
Lemma store_members_ID members :
  Forall (fun m => json.foldName m.1 <> "id") members ->
  forall item saved item',
    json.store_members item saved members = inr item' -> ID item' = ID item.
Proof.
  induction 1 as [| [key v] rest Hkey _ IH]; intros item saved item'; cbn [json.store_members].
  - destruct saved; intros [= <-]; reflexivity.
  - destruct (json.store_member item key v) as [err | item1] eqn:E.
    + apply IH.
    + intros H. rewrite (IH _ _ _ H). exact (store_member_ID _ _ _ _ Hkey E).
Qed.

(** When every row scans, the loop returns all of them, in order. *)
Lemma scan_rows_all items :
  forall acc, scan_rows (map inr items) (Some acc) = inr (Some (acc ++ items)%list).
Proof.
  induction items as [| item items IH]; intros acc; cbn [map scan_rows append].
  - rewrite app_nil_r. reflexivity.
  - rewrite IH, <- app_assoc. reflexivity.
Qed.

(** The first row that does not scan ends the loop with its error. *)
Lemma scan_rows_error items err rest :
  forall acc, scan_rows (map inr items ++ inl err :: rest)%list acc = inl err.
Proof.
  induction items as [| item items IH]; intros acc; cbn [map app scan_rows].
  - reflexivity.
  - apply IH.
Qed.

(** ** The claims *)

(** C1: at the request [PUT ?id=7] with body [{title: x}] on an empty cache
    and a store without rows, the update succeeds with status 200, yet no
    cache entry is written at the query id 7: the entry is written at key 0,
    the id of the decoded body, and a [GET ?id=7] that follows misses the
    cache, reaches the store and answers 404. *)
Theorem put_without_body_id_caches_at_zero :
  let out := serve (empty_store 1) itemsHandler (PUT "7" (title_body "x")) ∅ in
  let out' := serve (empty_store 1) itemsHandler (GET "7") (cache_after out) in
  response out = json_response StatusOK (json.Str "Item updated successfully")
  /\ sent out = [Exec update_query [ArgString "x"; ArgString "7"]]
  /\ cache_after out !! 7 = None
  /\ cache_after out !! 0 = Some {| ID := 0; Title := "x" |}
  /\ sent out' = [QueryRow_ScanItem select_query [ArgString "7"]]
  /\ response out' = error_response (Literal "Item not found") StatusNotFound.
Proof.
  vm_compute. repeat split; reflexivity.
Qed.

(** C2: when the body of a PUT decodes and the update statement succeeds,
    the cache entry written is the decoded item at the key of its own id
    (0 when the body has no id member); the id of the query string goes only
    into the UPDATE statement, and every other cache key keeps its entry. *)
Theorem updateItem_cache_key_is_body_id (db : Store) (r : Request) (c : gmap Z Item)
        (item : Item) (n : Z) :
  let id := Query_Get (URL_Query r) "id" in
  let upd := Exec update_query [ArgString (Title item); ArgString id] in
  json.Decode (Body r) zero_Item = inr item ->
  db upd = inr n ->
  let out := serve db updateItem r c in
  sent out = [upd]
  /\ cache_after out = <[ID item := {| ID := ID item; Title := Title item |}]> c
  /\ (forall k, k <> ID item -> cache_after out !! k = c !! k)
  /\ (forall members, Body r = json.Document (json.Object members) ->
        Forall (fun m => json.foldName m.1 <> "id") members -> ID item = 0).
Proof.
  intros id upd Hdec Hdb out. subst out. rewrite serve_updateItem. cbv zeta.
  rewrite Hdec. fold id. fold upd. rewrite Hdb. cbn [sent cache_after].
  destruct item as [i t]. cbn [ID Title].
  split; [reflexivity |]. split; [reflexivity |]. split.
  - intros k Hk. apply lookup_insert_ne. congruence.
  - intros members Hbody Hno. rewrite Hbody in Hdec. cbn in Hdec.
    apply (store_members_ID members Hno) in Hdec. exact Hdec.
Qed.

Lemma updateItem_cache_key_is_body_id_witness :
  let r := PUT "7" (json.Document (json.Object [("id", json.Int 3); ("title", json.Str "x")])) in
  let out := serve (empty_store 1) updateItem r ∅ in
  sent out = [Exec update_query [ArgString "x"; ArgString "7"]]
  /\ cache_after out = <[3 := {| ID := 3; Title := "x" |}]> ∅.
Proof.
  intros r out.
  pose proof (updateItem_cache_key_is_body_id (empty_store 1) r ∅
                {| ID := 3; Title := "x" |} 0 eq_refl eq_refl) as H.
  split; [exact (proj1 H) | exact (proj1 (proj2 H))].
Defined.



(** C4: whenever a statement a request sent was refused by the store, the
    cache after the request is the cache before it, and the status is 404
    for a single-item read refused with [sql.ErrNoRows] and 500 in every
    other case.  In particular a POST whose insert fails answers 500 and
    leaves the cache untouched, and a GET for an id that is neither cached
    nor in the store answers 404 and leaves the cache untouched; so does a
    read of all rows that ends on a row that fails to scan, with 500. *)
Theorem store_failure_leaves_cache (db : Store) (r : Request) (c : gmap Z Item) :
  let out := serve db itemsHandler r c in
  let id := Query_Get (URL_Query r) "id" in
  (forall s err, In s (sent out) -> db s = inl err ->
     cache_after out = c
     /\ status (response out)
        = Some (if single_read r && is_ErrNoRows err
                then StatusNotFound else StatusInternalServerError))
  /\ (forall item err,
        Method r = MethodPost -> json.Decode (Body r) zero_Item = inr item ->
        db (QueryRow_ScanID insert_query [ArgString (Title item)]) = inl err ->
        status (response out) = Some StatusInternalServerError /\ cache_after out = c)
  /\ (Method r = MethodGet -> id <> "" ->
      c !! (strconv.ParseInt id 0 32).1 = None ->
      db (QueryRow_ScanItem select_query [ArgString id]) = inl sql_ErrNoRows ->
      status (response out) = Some StatusNotFound /\ cache_after out = c)
  /\ (forall rows err,
        Method r = MethodGet -> id = "" ->
        db (Query select_all_query []) = inr rows ->
        scan_rows (rows_scans rows) make_Items = inl err ->
        status (response out) = Some StatusInternalServerError /\ cache_after out = c).
Proof.
  intros out id. subst out id. split; [| split; [| split]].
  - intros s err. unfold single_read.
    destruct (route_of r) as [H | H Hid | H Hid | H | H | H1 H2 H3 H4].
    + rewrite (serve_route _ _ _ _ _ (itemsHandler_POST r H)), serve_createItem, H. cbv zeta.
      destruct (json.Decode _ _) as [e | item]; cbn [sent]; [intros [] |].
      destruct (db (QueryRow_ScanID _ _)) as [e | id] eqn:E; cbn [sent];
        intros [<- | []] Hs; rewrite E in Hs; [| discriminate].
      injection Hs as ->. split; reflexivity.
    + rewrite (serve_route _ _ _ _ _ (itemsHandler_GET_all r H Hid)), serve_getItems, H, Hid. cbv zeta.
      cbn [sent cache_after response]. intros [<- | []] Hs. rewrite Hs.
      split; reflexivity.
    + rewrite (serve_route _ _ _ _ _ (itemsHandler_GET_one r H Hid)), serve_getItem, H. cbv zeta.
      destruct (String.eqb_spec (Query_Get (URL_Query r) "id") ""); [contradiction |].
      destruct (c !! _) as [hit |]; cbn [sent]; [intros [] |].
      destruct (db (QueryRow_ScanItem _ _)) as [e | item] eqn:E; cbn [sent];
        intros [<- | []] Hs; rewrite E in Hs; [| discriminate].
      injection Hs as ->. split; [reflexivity |]. destruct err; reflexivity.
    + rewrite (serve_route _ _ _ _ _ (itemsHandler_PUT r H)), serve_updateItem, H. cbv zeta.
      destruct (json.Decode _ _) as [e | item]; cbn [sent]; [intros [] |].
      destruct (db (Exec _ _)) as [e | n] eqn:E; cbn [sent];
        intros [<- | []] Hs; rewrite E in Hs; [| discriminate].
      injection Hs as ->. split; reflexivity.
    + rewrite (serve_route _ _ _ _ _ (itemsHandler_DELETE r H)), serve_deleteItem, H. cbv zeta.
      destruct (db (Exec _ _)) as [e | n] eqn:E; cbn [sent];
        intros [<- | []] Hs; rewrite E in Hs; [| discriminate].
      injection Hs as ->. split; reflexivity.
    + rewrite (serve_route _ _ _ _ _ (itemsHandler_other r H1 H2 H3 H4)). intros [].
  - intros item err H Hdec Hins.
    rewrite (serve_route _ _ _ _ _ (itemsHandler_POST r H)), serve_createItem. cbv zeta.
    rewrite Hdec, Hins. split; reflexivity.
  - intros H Hid Hmiss Hsel.
    rewrite (serve_route _ _ _ _ _ (itemsHandler_GET_one r H Hid)), serve_getItem. cbv zeta.
    rewrite Hmiss, Hsel. split; reflexivity.
  - intros rows err H Hid Hq Hscan.
    rewrite (serve_route _ _ _ _ _ (itemsHandler_GET_all r H Hid)), serve_getItems.
    cbv zeta. rewrite Hq, Hscan. split; reflexivity.
Qed.

Lemma store_failure_leaves_cache_witness :
  let c : gmap Z Item := <[5 := {| ID := 5; Title := "kept" |}]> ∅ in
  let out := serve down_store itemsHandler (POST (title_body "a")) c in
  let out' := serve (empty_store 1) itemsHandler (GET "9") c in
  (cache_after out = c /\ status (response out) = Some StatusInternalServerError)
  /\ (cache_after out' = c /\ status (response out') = Some StatusNotFound).
Proof.
  intros c out out'. split.
  - exact (proj1 (store_failure_leaves_cache down_store (POST (title_body "a")) c)
             (QueryRow_ScanID insert_query [ArgString "a"])
             (driver_Error "connection refused") (or_introl eq_refl) eq_refl).
  - exact (proj1 (store_failure_leaves_cache (empty_store 1) (GET "9") c)
             (QueryRow_ScanItem select_query [ArgString "9"])
             sql_ErrNoRows (or_introl eq_refl) eq_refl).
Defined.

(** C5, as stated, fails: for the query value [abc], which [ParseInt]
    rejects, the cache is empty at key 0 and the statement sent carries the
    string [abc] itself, not the id 0 in either Go type; and for
    [4294967296], rejected as out of range, the cache is consulted at key
    2147483647, not at key 0. *)
Lemma unparseable_id_is_not_a_lookup_of_zero :
  let out := serve (empty_store 1) itemsHandler (GET "abc") ∅ in
  let c : gmap Z Item := <[2147483647 := {| ID := 2147483647; Title := "last" |}]> ∅ in
  let out' := serve (empty_store 1) itemsHandler (GET "4294967296") c in
  strconv.ParseInt "abc" 0 32 = (0, Some strconv.ErrSyntax)
  /\ sent out = [QueryRow_ScanItem select_query [ArgString "abc"]]
  /\ ~ (exists arg, (arg = ArgInt64 0 \/ arg = ArgString "0")
                    /\ sent out = [QueryRow_ScanItem select_query [arg]])
  /\ strconv.ParseInt "4294967296" 0 32 = (2147483647, Some strconv.ErrRange)
  /\ c !! 0 = None
  /\ sent out' = []
  /\ response out'
     = json_response StatusOK (json.of_Item {| ID := 2147483647; Title := "last" |}).
Proof.
  intros out c out'.
  split; [vm_compute; reflexivity |].
  split; [vm_compute; reflexivity |].
  split.
  { intros (arg & Harg & Hsent).
    assert (E : sent out = [QueryRow_ScanItem select_query [ArgString "abc"]])
      by (vm_compute; reflexivity).
    rewrite E in Hsent. destruct Harg as [-> | ->]; discriminate Hsent. }
  repeat split; vm_compute; reflexivity.
Qed.

(** C5, amended: when [ParseInt] rejects the query value, the cache is
    consulted at the value it returns with the error (0 for a syntax error,
    the nearest 32-bit bound for a range error); a hit is answered from the
    cache without a statement, and on a miss the one statement sent is the
    SELECT with the query value itself, as the string it came as. *)
Theorem getItem_unparseable_id (db : Store) (r : Request) (c : gmap Z Item)
        (k : Z) (e : strconv.NumError) :
  let id := Query_Get (URL_Query r) "id" in
  strconv.ParseInt id 0 32 = (k, Some e) ->
  let out := serve db getItem r c in
  (e = strconv.ErrSyntax -> k = 0)
  /\ (e = strconv.ErrRange -> k = 2 ^ 31 - 1 \/ k = - 2 ^ 31)
  /\ (forall item, c !! k = Some item ->
        response out = json_response StatusOK (json.of_Item item) /\ sent out = []
        /\ cache_after out = c)
  /\ (c !! k = None -> sent out = [QueryRow_ScanItem select_query [ArgString id]]).
Proof.
  intros id Hparse out. subst out.
  destruct (strconv_facts.ParseInt_error_value _ _ _ Hparse) as [Hsyn Hrange].
  rewrite serve_getItem. cbv zeta. fold id. rewrite Hparse. cbn [fst].
  split; [exact Hsyn |]. split; [exact Hrange |]. split.
  - intros item Hhit. rewrite Hhit. repeat split; reflexivity.
  - intros Hmiss. rewrite Hmiss. destruct (db _); reflexivity.
Qed.

Lemma getItem_unparseable_id_witness :
  let c : gmap Z Item := <[0 := {| ID := 0; Title := "zero" |}]> ∅ in
  let out := serve down_store getItem (GET "abc") c in
  response out = json_response StatusOK (json.of_Item {| ID := 0; Title := "zero" |})
  /\ sent out = [].
Proof.
  intros c out.
  pose proof (getItem_unparseable_id down_store (GET "abc") c 0 strconv.ErrSyntax eq_refl) as H.
  destruct (proj1 (proj2 (proj2 H)) {| ID := 0; Title := "zero" |} eq_refl) as (H1 & H2 & _).
  split; [exact H1 | exact H2].
Defined.

(** C6: when the body of a PUT decodes and the UPDATE is executed without
    error, and when the DELETE is executed without error, the response is
    200 with the handler's confirmation, the same for every number [n] of
    rows the statement reports as affected. *)
Theorem update_delete_confirm_whatever_matched (db : Store) (r : Request)
        (c : gmap Z Item) (n : Z) :
  let id := Query_Get (URL_Query r) "id" in
  (forall item,
     json.Decode (Body r) zero_Item = inr item ->
     db (Exec update_query [ArgString (Title item); ArgString id]) = inr n ->
     response (serve db updateItem r c)
     = json_response StatusOK (json.Str "Item updated successfully"))
  /\ (db (Exec delete_query [ArgInt64 (strconv.ParseInt id 0 32).1]) = inr n ->
      response (serve db deleteItem r c)
      = json_response StatusOK (json.Str "Item deleted successfully")).
Proof.
  intros id. split.
  - intros item Hdec Hdb. rewrite serve_updateItem. cbv zeta. fold id.
    rewrite Hdec, Hdb. reflexivity.
  - intros Hdb. rewrite serve_deleteItem. cbv zeta. fold id. rewrite Hdb. reflexivity.
Qed.

Lemma update_delete_confirm_whatever_matched_witness :
  response (serve one_row_store updateItem (PUT "7" (title_body "x")) ∅)
  = response (serve one_row_store updateItem (PUT "9" (title_body "x")) ∅)
  /\ response (serve one_row_store deleteItem (DELETE "7") ∅)
     = response (serve one_row_store deleteItem (DELETE "9") ∅).
Proof.
  pose proof (update_delete_confirm_whatever_matched one_row_store
                (PUT "7" (title_body "x")) ∅ 1) as [U1 _].
  pose proof (update_delete_confirm_whatever_matched one_row_store
                (PUT "9" (title_body "x")) ∅ 0) as [U0 _].
  pose proof (update_delete_confirm_whatever_matched one_row_store
                (DELETE "7") ∅ 1) as [_ D1].
  pose proof (update_delete_confirm_whatever_matched one_row_store
                (DELETE "9") ∅ 0) as [_ D0].
  split.
  - exact (eq_trans (U1 _ eq_refl eq_refl) (eq_sym (U0 _ eq_refl eq_refl))).
  - exact (eq_trans (D1 eq_refl) (eq_sym (D0 eq_refl))).
Defined.



(** C8: the read-all handler leaves the cache as it was and answers the
    same whatever the cache holds; it always sends the one SELECT over all
    rows; when the query fails it answers 500; when the query succeeds and
    the rows are read to the end it answers 200 with the array of the rows in
    order, which is the empty array, not null, when there is no row. *)
Theorem getItems_bypasses_cache (db : Store) (r : Request) (c : gmap Z Item) :
  let q := Query select_all_query [] in
  let out := serve db getItems r c in
  cache_after out = c
  /\ sent out = [q]
  /\ (forall c', response (serve db getItems r c') = response out)
  /\ (forall err, db q = inl err ->
        response out = error_response (ErrorString err) StatusInternalServerError)
  /\ (forall items, db q = inr {| rows_scans := map inr items; rows_Err := None |} ->
        response out = json_response StatusOK (json.Array (map json.of_Item items)))
  /\ (db q = inr {| rows_scans := []; rows_Err := None |} ->
        response out = json_response StatusOK (json.Array [])
        /\ json.Array [] <> json.Null).
Proof.
  intros q out. subst out. rewrite serve_getItems. cbv zeta. fold q.
  cbn [cache_after sent response].
  split; [reflexivity |]. split; [reflexivity |].
  split; [intros c'; rewrite serve_getItems; reflexivity |].
  split; [intros err ->; reflexivity |].
  split.
  - intros items ->. cbn [rows_scans]. unfold make_Items.
    rewrite scan_rows_all. reflexivity.
  - intros ->. split; [reflexivity | discriminate].
Qed.

Lemma getItems_bypasses_cache_witness :
  let c : gmap Z Item := <[7 := {| ID := 7; Title := "stale" |}]> ∅ in
  response (serve one_row_store getItems GET_all c)
  = json_response StatusOK (json.Array [json.of_Item {| ID := 7; Title := "seven" |}])
  /\ response (serve (empty_store 1) getItems GET_all c)
     = json_response StatusOK (json.Array []).
Proof.
  intros c. split.
  - exact (proj1 (proj2 (proj2 (proj2 (proj2
             (getItems_bypasses_cache one_row_store GET_all c)))))
             [{| ID := 7; Title := "seven" |}] eq_refl).
  - exact (proj1 (proj2 (proj2 (proj2 (proj2 (proj2
             (getItems_bypasses_cache (empty_store 1) GET_all c))))) eq_refl)).
Defined.

(** C9: the router picks the handler by the method and by whether the [id]
    query value is empty: POST creates, GET without id reads all, GET with
    an id reads one, PUT updates, DELETE deletes; under any other method the
    answer is 405, no statement is sent and the cache is left as it was. *)
Theorem itemsHandler_dispatch (r : Request) :
  let id := Query_Get (URL_Query r) "id" in
  (Method r = MethodPost -> itemsHandler r = createItem r)
  /\ (Method r = MethodGet -> id = "" -> itemsHandler r = getItems r)
  /\ (Method r = MethodGet -> id <> "" -> itemsHandler r = getItem r)
  /\ (Method r = MethodPut -> itemsHandler r = updateItem r)
  /\ (Method r = MethodDelete -> itemsHandler r = deleteItem r)
  /\ (Method r <> MethodPost -> Method r <> MethodGet ->
      Method r <> MethodPut -> Method r <> MethodDelete ->
      forall (db : Store) (c : gmap Z Item),
        serve db itemsHandler r c
        = {| response := error_response (Literal "Method not Allowed") StatusMethodNotAllowed;
             cache_after := c; sent := [] |}).
Proof.
  intros id. subst id. repeat split.
  - apply itemsHandler_POST.
  - apply itemsHandler_GET_all.
  - apply itemsHandler_GET_one.
  - apply itemsHandler_PUT.
  - apply itemsHandler_DELETE.
  - intros H1 H2 H3 H4 db c.
    rewrite (serve_route _ _ _ _ _ (itemsHandler_other r H1 H2 H3 H4)). reflexivity.
Qed.

Lemma itemsHandler_dispatch_witness :
  itemsHandler (POST (title_body "a")) = createItem (POST (title_body "a"))
  /\ itemsHandler GET_all = getItems GET_all
  /\ itemsHandler (GET "7") = getItem (GET "7")
  /\ itemsHandler (PUT "7" (title_body "a")) = updateItem (PUT "7" (title_body "a"))
  /\ itemsHandler (DELETE "7") = deleteItem (DELETE "7")
  /\ status (response (serve one_row_store itemsHandler
                         {| Method := "PATCH"; URL_Query := [("id", "7")];
                            Body := title_body "a" |} ∅))
     = Some StatusMethodNotAllowed.
Proof.
  split; [exact (proj1 (itemsHandler_dispatch (POST (title_body "a"))) eq_refl) |].
  split; [exact (proj1 (proj2 (itemsHandler_dispatch GET_all)) eq_refl eq_refl) |].
  split; [exact (proj1 (proj2 (proj2 (itemsHandler_dispatch (GET "7"))))
                   eq_refl ltac:(discriminate)) |].
  split; [exact (proj1 (proj2 (proj2 (proj2
                   (itemsHandler_dispatch (PUT "7" (title_body "a")))))) eq_refl) |].
  split; [exact (proj1 (proj2 (proj2 (proj2 (proj2
                   (itemsHandler_dispatch (DELETE "7")))))) eq_refl) |].
  rewrite (proj2 (proj2 (proj2 (proj2 (proj2
             (itemsHandler_dispatch {| Method := "PATCH"; URL_Query := [("id", "7")];
                                       Body := title_body "a" |})))))
             ltac:(discriminate) ltac:(discriminate) ltac:(discriminate)
             ltac:(discriminate) one_row_store ∅).
  reflexivity.
Defined.

(** C10: when the query of the read-all handler succeeds and the iteration
    ends on an error of the cursor after the rows [items] were read, the
    handler answers 200 with exactly these rows; a row that fails to scan,
    in contrast, ends the request with 500. *)
Theorem getItems_cursor_failure_is_partial_success (db : Store) (r : Request)
        (c : gmap Z Item) (items : list Item) (err : error) :
  let q := Query select_all_query [] in
  (db q = inr {| rows_scans := map inr items; rows_Err := Some err |} ->
   response (serve db getItems r c)
   = json_response StatusOK (json.Array (map json.of_Item items)))
  /\ (forall rest e,
        db q = inr {| rows_scans := (map inr items ++ inl err :: rest)%list; rows_Err := e |} ->
        response (serve db getItems r c)
        = error_response (ErrorString err) StatusInternalServerError).
Proof.
  intros q. split.
  - intros Hq. rewrite serve_getItems. cbv zeta. fold q. rewrite Hq.
    cbn [response rows_scans]. unfold make_Items. rewrite scan_rows_all. reflexivity.
  - intros rest e Hq. rewrite serve_getItems. cbv zeta. fold q. rewrite Hq.
    cbn [response rows_scans]. rewrite scan_rows_error. reflexivity.
Qed.

Lemma getItems_cursor_failure_is_partial_success_witness :
  response (serve broken_cursor_store getItems GET_all ∅)
  = json_response StatusOK (json.Array [json.of_Item {| ID := 1; Title := "first" |}]).
Proof.
  exact (proj1 (getItems_cursor_failure_is_partial_success broken_cursor_store GET_all ∅
                  [{| ID := 1; Title := "first" |}] (driver_Error "connection reset"))
           eq_refl).
Defined.

(** * Further properties of the handlers *)

(** Splits a goal on [serve db itemsHandler r c] by the route of [r] and
    replaces the outcome by what the handler of that route gives. *)
Ltac by_route r :=
  let H := fresh "Hmethod" in
  let Hid := fresh "Hid" in
  let H2 := fresh "Hmethod" in
  let H3 := fresh "Hmethod" in
  let H4 := fresh "Hmethod" in
  destruct (route_of r) as [H | H Hid | H Hid | H | H | H H2 H3 H4];
  [ rewrite (serve_route _ _ _ _ _ (itemsHandler_POST r H)), serve_createItem
  | rewrite (serve_route _ _ _ _ _ (itemsHandler_GET_all r H Hid)), serve_getItems
  | rewrite (serve_route _ _ _ _ _ (itemsHandler_GET_one r H Hid)), serve_getItem
  | rewrite (serve_route _ _ _ _ _ (itemsHandler_PUT r H)), serve_updateItem
  | rewrite (serve_route _ _ _ _ _ (itemsHandler_DELETE r H)), serve_deleteItem
  | rewrite (serve_route _ _ _ _ _ (itemsHandler_other r H H2 H3 H4)) ];
  cbv zeta.

(** Destructs whatever the outcome in the goal still branches on. *)
Ltac by_outcome :=
  repeat match goal with
         | |- context [match ?x with _ => _ end] => destruct x eqn:?
         end.

(** X1: a request that is not answered with 200 or 201 leaves the cache
    exactly as it was, whatever the route, the body and the store. *)
Theorem error_status_leaves_cache (db : Store) (r : Request) (c : gmap Z Item) :
  let out := serve db itemsHandler r c in
  status (response out) <> Some StatusOK ->
  status (response out) <> Some StatusCreated ->
  cache_after out = c.
Proof.
  intros out. subst out. by_route r; by_outcome; cbn; intros H200 H201;
    try reflexivity; try (exfalso; apply H200; reflexivity);
    try (exfalso; apply H201; reflexivity).
Qed.

Lemma error_status_leaves_cache_witness :
  let c : gmap Z Item := <[5 := {| ID := 5; Title := "kept" |}]> ∅ in
  cache_after (serve (empty_store 1) itemsHandler
                 (PUT "5" (json.Document (json.Object [("title", json.Int 3)]))) c) = c.
Proof.
  intros c.
  apply (error_status_leaves_cache (empty_store 1)
           (PUT "5" (json.Document (json.Object [("title", json.Int 3)]))) c);
    discriminate.
Defined.

(** X2: every request is answered exactly once: the response has a status,
    one of 200, 201, 400, 404, 405 and 500, and a body of one write, and at
    most one statement was sent to the store for it. *)
Theorem one_answer_per_request (db : Store) (r : Request) (c : gmap Z Item) :
  let out := serve db itemsHandler r c in
  (exists code, status (response out) = Some code
                /\ In code [StatusOK; StatusCreated; StatusBadRequest; StatusNotFound;
                            StatusMethodNotAllowed; StatusInternalServerError])
  /\ length (body (response out)) = 1%nat
  /\ (length (sent out) <= 1)%nat.
Proof.
  intros out. subst out. by_route r; by_outcome; cbn;
    (split; [eexists; split; [reflexivity | cbn; tauto] | split; [reflexivity | lia]]).
Qed.

(** X3: when every cache entry is stored under the id it carries, it is
    still so after any request, and therefore after any sequence of requests
    served from the empty cache the process starts with. *)
Theorem cache_entries_keyed_by_their_id (reqs : list (Store * Request)) :
  (forall (db : Store) (r : Request) (c : gmap Z Item),
     keyed_by_id c -> keyed_by_id (cache_after (serve db itemsHandler r c)))
  /\ keyed_by_id (serve_all reqs ∅).
Proof.
  assert (Hstep : forall (db : Store) (r : Request) (c : gmap Z Item),
             keyed_by_id c -> keyed_by_id (cache_after (serve db itemsHandler r c))).
  { intros db r c Hc. unfold keyed_by_id in *.
    by_route r; by_outcome; cbn [cache_after]; try exact Hc;
      try (apply map_Forall_insert_2; [reflexivity | exact Hc]);
      try (apply map_Forall_delete; exact Hc). }
  split; [exact Hstep |].
  assert (Hall : forall c, keyed_by_id c -> keyed_by_id (serve_all reqs c)).
  { induction reqs as [| [db r] rest IH]; intros c Hc; cbn [serve_all].
    - exact Hc.
    - apply IH, Hstep, Hc. }
  apply Hall. apply map_Forall_empty.
Qed.

(** X4: a request changes the cache at one key at most: there is a key such
    that every other key has the entry, or the absence of one, it had. *)
Theorem one_cache_key_per_request (db : Store) (r : Request) (c : gmap Z Item) :
  exists k, forall k', k' <> k ->
    cache_after (serve db itemsHandler r c) !! k' = c !! k'.
Proof.
  by_route r; by_outcome; cbn [cache_after];
    try (exists 0; intros; reflexivity);
    try (eexists; intros k' Hk'; apply lookup_insert_ne;
         intros Heq; apply Hk'; symmetry; exact Heq);
    try (eexists; intros k' Hk'; apply lookup_delete_ne;
         intros Heq; apply Hk'; symmetry; exact Heq).
Qed.

(** X5: the statements a request sends are decided by its method: a GET
    sends nothing but one of the two SELECTs, a POST nothing but the INSERT,
    a PUT nothing but the UPDATE, a DELETE nothing but the DELETE, and any
    other method nothing at all. *)
Theorem statements_by_method (db : Store) (r : Request) (c : gmap Z Item) (s : Stmt) :
  In s (sent (serve db itemsHandler r c)) ->
  (Method r = MethodGet /\ exists args, s = QueryRow_ScanItem select_query args
                                        \/ s = Query select_all_query args)
  \/ (Method r = MethodPost /\ exists args, s = QueryRow_ScanID insert_query args)
  \/ (Method r = MethodPut /\ exists args, s = Exec update_query args)
  \/ (Method r = MethodDelete /\ exists args, s = Exec delete_query args).
Proof.
  by_route r; by_outcome; cbn [sent]; intros Hin;
    (first [destruct Hin as [<- | []] | destruct Hin]).
  all: first
    [ right; left; split; [assumption | eexists; reflexivity]
    | left; split; [assumption | eexists; right; reflexivity]
    | left; split; [assumption | eexists; left; reflexivity]
    | right; right; left; split; [assumption | eexists; reflexivity]
    | right; right; right; split; [assumption | eexists; reflexivity] ].
Qed.

Lemma statements_by_method_witness :
  exists args, QueryRow_ScanItem select_query [ArgString "9"]
               = QueryRow_ScanItem select_query args
               \/ QueryRow_ScanItem select_query [ArgString "9"]
                  = Query select_all_query args.
Proof.
  assert (Hin : In (QueryRow_ScanItem select_query [ArgString "9"])
                  (sent (serve (empty_store 1) itemsHandler (GET "9") ∅)))
    by (left; reflexivity).
  destruct (statements_by_method (empty_store 1) (GET "9") ∅
              (QueryRow_ScanItem select_query [ArgString "9"]) Hin)
    as [[_ H] | [[H _] | [[H _] | [H _]]]];
    [exact H | discriminate H | discriminate H | discriminate H].
Defined.

Lemma cache_entries_keyed_by_their_id_witness :
  keyed_by_id
    (cache_after (serve (empty_store 7) itemsHandler (POST (title_body "a")) ∅)).
Proof.
  apply (proj1 (cache_entries_keyed_by_their_id [])). apply map_Forall_empty.
Defined.

(** ** Decoding the body *)

(** Once a type error is remembered, decoding ends with it. *)
Lemma store_members_saved members :
  forall item err, json.store_members item (Some err) members = inl err.
Proof.
  induction members as [| [key v] rest IH]; intros item err; cbn [json.store_members].
  - reflexivity.
  - destruct (json.store_member item key v); apply IH.
Qed.

Lemma store_member_wrong_kind key v :
  wrong_kind key v = true ->
  forall item, exists err, json.store_member item key v = inl err.
Proof.
  unfold wrong_kind, json.store_member. intros H item.
  destruct (String.eqb (json.foldName key) "id").
  - destruct v; try discriminate H; try (eexists; reflexivity).
    destruct (json.int64_ok n); [discriminate H | eexists; reflexivity].
  - destruct (String.eqb (json.foldName key) "title"); [| discriminate H].
    destruct v; try discriminate H; eexists; reflexivity.
Qed.

Lemma store_members_wrong_kind members key v :
  In (key, v) members -> wrong_kind key v = true ->
  forall item saved, exists err, json.store_members item saved members = inl err.
Proof.
  intros Hin Hwrong.
  induction members as [| [key' v'] rest IH]; [destruct Hin |].
  intros item saved. cbn [json.store_members].
  destruct Hin as [[= -> ->] | Hin].
  - destruct (store_member_wrong_kind key v Hwrong item) as [err ->].
    destruct saved as [e |]; eexists; apply store_members_saved.
  - destruct (json.store_member item key' v'); apply (IH Hin).
Qed.

Lemma store_member_Title item key v item' :
  json.foldName key <> "title" ->
  json.store_member item key v = inr item' -> Title item' = Title item.
Proof.
  intros Hkey. unfold json.store_member.
  destruct (String.eqb (json.foldName key) "id").
  - destruct v; try discriminate; try (intros [= <-]; reflexivity).
    destruct (json.int64_ok n); [intros [= <-]; reflexivity | discriminate].
  - destruct (String.eqb_spec (json.foldName key) "title"); [contradiction |].
    intros [= <-]; reflexivity.
Qed.

Lemma store_members_Title members :
  Forall (fun m => json.foldName m.1 <> "title") members ->
  forall item saved item',
    json.store_members item saved members = inr item' -> Title item' = Title item.
Proof.
  induction 1 as [| [key v] rest Hkey _ IH]; intros item saved item'; cbn [json.store_members].
  - destruct saved; intros [= <-]; reflexivity.
  - destruct (json.store_member item key v) as [err | item1] eqn:E.
    + apply IH.
    + intros H. rewrite (IH _ _ _ H). exact (store_member_Title _ _ _ _ Hkey E).
Qed.

(** X6: a POST or PUT whose body is an object with some member naming
    [id] or [title], in any letter case, with a value of another JSON kind
    than the field takes (or an id beyond 64 bits) is answered 400; no
    statement is sent and the cache is left as it was, whatever the other
    members are. *)
Theorem mistyped_member_is_rejected (db : Store) (r : Request) (c : gmap Z Item)
        (members : list (string * json.Value)) (key : string) (v : json.Value) :
  Method r = MethodPost \/ Method r = MethodPut ->
  Body r = json.Document (json.Object members) ->
  In (key, v) members ->
  wrong_kind key v = true ->
  let out := serve db itemsHandler r c in
  status (response out) = Some StatusBadRequest
  /\ sent out = []
  /\ cache_after out = c.
Proof.
  intros Hmethod Hbody Hin Hwrong out. subst out.
  destruct (store_members_wrong_kind members key v Hin Hwrong zero_Item None) as [err Herr].
  assert (Hdec : json.Decode (Body r) zero_Item = inl err)
    by (rewrite Hbody; exact Herr).
  destruct Hmethod as [H | H].
  - rewrite (serve_route _ _ _ _ _ (itemsHandler_POST r H)), serve_createItem, Hdec.
    repeat split; reflexivity.
  - rewrite (serve_route _ _ _ _ _ (itemsHandler_PUT r H)), serve_updateItem.
    cbv zeta. rewrite Hdec. repeat split; reflexivity.
Qed.

Lemma mistyped_member_is_rejected_witness :
  let b := json.Document (json.Object [("title", json.Str "a"); ("TITLE", json.Int 3)]) in
  status (response (serve (empty_store 1) itemsHandler (POST b) ∅)) = Some StatusBadRequest.
Proof.
  intros b.
  exact (proj1 (mistyped_member_is_rejected (empty_store 1) (POST b) ∅
                  [("title", json.Str "a"); ("TITLE", json.Int 3)] "TITLE" (json.Int 3)
                  (or_introl eq_refl) eq_refl (or_intror (or_introl eq_refl)) eq_refl)).
Defined.

(** X7: the title is not required: a POST whose body is an object without a
    title member, if it decodes, sends the INSERT with the empty title, and
    the item created on success has the empty title. *)
Theorem missing_title_is_inserted_empty (db : Store) (r : Request) (c : gmap Z Item)
        (members : list (string * json.Value)) (item : Item) :
  Method r = MethodPost ->
  Body r = json.Document (json.Object members) ->
  Forall (fun m => json.foldName m.1 <> "title") members ->
  json.Decode (Body r) zero_Item = inr item ->
  let out := serve db itemsHandler r c in
  let ins := QueryRow_ScanID insert_query [ArgString ""] in
  sent out = [ins]
  /\ (forall N, db ins = inr N ->
        response out
        = json_response StatusCreated (json.of_Item {| ID := N; Title := "" |})
        /\ cache_after out = <[N := {| ID := N; Title := "" |}]> c).
Proof.
  intros H Hbody Hno Hdec out ins. subst out.
  assert (Htitle : Title item = "").
  { rewrite Hbody in Hdec. cbn in Hdec.
    exact (store_members_Title members Hno _ _ _ Hdec). }
  rewrite (serve_route _ _ _ _ _ (itemsHandler_POST r H)), serve_createItem, Hdec.
  cbv zeta. rewrite Htitle. fold ins. split.
  - destruct (db ins); reflexivity.
  - intros N ->. split; reflexivity.
Qed.

Lemma missing_title_is_inserted_empty_witness :
  let b := json.Document (json.Object [("id", json.Int 4)]) in
  sent (serve (empty_store 1) itemsHandler (POST b) ∅)
  = [QueryRow_ScanID insert_query [ArgString ""]].
Proof.
  intros b.
  assert (Hno : Forall (fun m : string * json.Value => json.foldName m.1 <> "title")
                  [("id", json.Int 4)])
    by (constructor; [discriminate | constructor]).
  exact (proj1 (missing_title_is_inserted_empty (empty_store 1) (POST b) ∅
                  [("id", json.Int 4)] {| ID := 4; Title := "" |}
                  eq_refl eq_refl Hno eq_refl)).
Defined.

(** X8: a POST uses nothing of its body but the title: two POSTs whose
    bodies decode to the same title, with whatever ids and other members,
    have the same outcome (response, cache and statement) against the same
    store and cache. *)
Theorem createItem_uses_only_the_title (db : Store) (r1 r2 : Request) (c : gmap Z Item)
        (item1 item2 : Item) :
  Method r1 = MethodPost -> Method r2 = MethodPost ->
  json.Decode (Body r1) zero_Item = inr item1 ->
  json.Decode (Body r2) zero_Item = inr item2 ->
  Title item1 = Title item2 ->
  serve db itemsHandler r1 c = serve db itemsHandler r2 c.
Proof.
  intros H1 H2 Hdec1 Hdec2 Htitle.
  rewrite (serve_route _ _ _ _ _ (itemsHandler_POST r1 H1)),
    (serve_route _ _ _ _ _ (itemsHandler_POST r2 H2)), !serve_createItem,
    Hdec1, Hdec2, Htitle.
  reflexivity.
Qed.

Lemma createItem_uses_only_the_title_witness :
  serve (empty_store 3) itemsHandler
    (POST (json.Document (json.Object [("id", json.Int 99); ("title", json.Str "a")]))) ∅
  = serve (empty_store 3) itemsHandler (POST (title_body "a")) ∅.
Proof.
  exact (createItem_uses_only_the_title (empty_store 3)
           (POST (json.Document (json.Object [("id", json.Int 99); ("title", json.Str "a")])))
           (POST (title_body "a")) ∅ {| ID := 99; Title := "a" |} {| ID := 0; Title := "a" |}
           eq_refl eq_refl eq_refl eq_refl eq_refl).
Defined.

(** ** Reads, updates and deletes in sequence *)

(** X9: a single-item read that misses the cache and finds a row answers
    with that row and stores it under the id of the row.  When that id is the
    key the query value parses to, the same read again is answered alike from
    the cache without a statement; when it is another id, the same read again
    misses again and sends the SELECT again. *)
Theorem read_through_cache (db db' : Store) (r : Request) (c : gmap Z Item) (item : Item) :
  let id := Query_Get (URL_Query r) "id" in
  let k := (strconv.ParseInt id 0 32).1 in
  let sel := QueryRow_ScanItem select_query [ArgString id] in
  c !! k = None ->
  db sel = inr item ->
  let out1 := serve db getItem r c in
  let out2 := serve db' getItem r (cache_after out1) in
  response out1 = json_response StatusOK (json.of_Item item)
  /\ cache_after out1 = <[ID item := item]> c
  /\ (ID item = k ->
      response out2 = response out1 /\ sent out2 = []
      /\ cache_after out2 = cache_after out1)
  /\ (ID item <> k -> sent out2 = [sel]).
Proof.
  intros id k sel Hmiss Hsel out1 out2. subst out1 out2.
  rewrite !serve_getItem. cbv zeta. fold id. fold k. fold sel.
  rewrite Hmiss, Hsel. cbn [response cache_after sent].
  split; [reflexivity |]. split; [reflexivity |]. split.
  - intros <-. rewrite lookup_insert_eq. repeat split; reflexivity.
  - intros Hne. rewrite lookup_insert_ne, Hmiss by exact Hne.
    destruct (db' sel); reflexivity.
Qed.

Lemma read_through_cache_witness :
  let out1 := serve one_row_store getItem (GET "7") ∅ in
  let out2 := serve down_store getItem (GET "7") (cache_after out1) in
  response out2 = json_response StatusOK (json.of_Item {| ID := 7; Title := "seven" |})
  /\ sent out2 = [].
Proof.
  intros out1 out2.
  pose proof (read_through_cache one_row_store down_store (GET "7") ∅
                {| ID := 7; Title := "seven" |} eq_refl eq_refl) as (H1 & _ & H & _).
  destruct (H eq_refl) as (H2 & H3 & _).
  split; [exact (eq_trans H2 H1) | exact H3].
Defined.

(** X10: when the body of a PUT carries the id of the query string (a value
    of the integer column) and the update succeeds, a GET for that id is
    answered from the cache with the item of the body, title included, and
    sends no statement. *)
Theorem update_with_body_id_is_read_back (db db' : Store) (r1 r2 : Request)
        (c : gmap Z Item) (item : Item) (n : Z) :
  let id := strconv.FormatInt (ID item) in
  Method r1 = MethodPut -> Query_Get (URL_Query r1) "id" = id ->
  json.Decode (Body r1) zero_Item = inr item ->
  pg_integer (ID item) = true ->
  db (Exec update_query [ArgString (Title item); ArgString id]) = inr n ->
  Method r2 = MethodGet -> Query_Get (URL_Query r2) "id" = id ->
  let out1 := serve db itemsHandler r1 c in
  let out2 := serve db' itemsHandler r2 (cache_after out1) in
  response out2 = json_response StatusOK (json.of_Item item) /\ sent out2 = [].
Proof.
  intros id Hput Hid1 Hdec HN Hdb Hget Hid2 out1 out2. subst out1 out2.
  apply pg_integer_range in HN.
  assert (Hne : Query_Get (URL_Query r2) "id" <> "")
    by (rewrite Hid2; apply strconv_facts.FormatInt_nonempty).
  rewrite (serve_route _ _ _ _ _ (itemsHandler_PUT r1 Hput)), serve_updateItem.
  cbv zeta. rewrite Hdec, Hid1, Hdb. cbn [cache_after].
  rewrite (serve_route _ _ _ _ _ (itemsHandler_GET_one r2 Hget Hne)), serve_getItem.
  cbv zeta. rewrite Hid2. unfold id.
  rewrite (strconv_facts.ParseInt_FormatInt _ HN). cbn [fst].
  rewrite lookup_insert_eq. split; reflexivity.
Qed.

Lemma update_with_body_id_is_read_back_witness :
  let b := json.Document (json.Object [("id", json.Int 7); ("title", json.Str "new")]) in
  let out1 := serve one_row_store itemsHandler (PUT "7" b) ∅ in
  let out2 := serve one_row_store itemsHandler (GET "7") (cache_after out1) in
  response out2 = json_response StatusOK (json.of_Item {| ID := 7; Title := "new" |})
  /\ sent out2 = [].
Proof.
  intros b out1 out2.
  exact (update_with_body_id_is_read_back one_row_store one_row_store (PUT "7" b) (GET "7") ∅
           {| ID := 7; Title := "new" |} 1
           eq_refl eq_refl eq_refl eq_refl eq_refl eq_refl eq_refl).
Defined.



(** X12: a DELETE whose id is missing or is not integer syntax is not
    refused: it sends the DELETE statement for the id 0 and, when the store
    executes it, answers 200 and drops the cache entry under key 0. *)
Theorem delete_without_valid_id_targets_zero (db : Store) (r : Request) (c : gmap Z Item) :
  let id := Query_Get (URL_Query r) "id" in
  let del := Exec delete_query [ArgInt64 0] in
  Method r = MethodDelete ->
  id = "" \/ (strconv.ParseInt id 0 32).2 = Some strconv.ErrSyntax ->
  let out := serve db itemsHandler r c in
  sent out = [del]
  /\ (forall n, db del = inr n ->
        response out = json_response StatusOK (json.Str "Item deleted successfully")
        /\ cache_after out = delete 0 c).
Proof.
  intros id del Hdel Hbad out. subst out.
  assert (Hzero : (strconv.ParseInt id 0 32).1 = 0).
  { destruct Hbad as [-> | Hsyn]; [reflexivity |].
    destruct (strconv.ParseInt id 0 32) as [k e] eqn:E. cbn in Hsyn. subst e.
    exact (proj1 (strconv_facts.ParseInt_error_value _ _ _ E) eq_refl). }
  rewrite (serve_route _ _ _ _ _ (itemsHandler_DELETE r Hdel)), serve_deleteItem.
  cbv zeta. fold id. rewrite Hzero. fold del. split.
  - destruct (db del); reflexivity.
  - intros n ->. split; reflexivity.
Qed.

Lemma delete_without_valid_id_targets_zero_witness :
  let c : gmap Z Item := <[0 := {| ID := 0; Title := "zero" |}]> ∅ in
  let r := {| Method := "DELETE"; URL_Query := [];
              Body := json.Malformed (json_SyntaxError "EOF") |} in
  cache_after (serve (empty_store 1) itemsHandler r c) = delete 0 c
  /\ sent (serve (empty_store 1) itemsHandler (DELETE "seven") c)
     = [Exec delete_query [ArgInt64 0]].
Proof.
  intros c r. split.
  - exact (proj2 (proj2 (delete_without_valid_id_targets_zero (empty_store 1) r c
                           eq_refl (or_introl eq_refl)) 0 eq_refl)).
  - exact (proj1 (delete_without_valid_id_targets_zero (empty_store 1) (DELETE "seven") c
                    eq_refl (or_intror eq_refl))).
Defined.

(** X13: creating an item and then deleting it by the id the store gave it
    (a value of the integer column) leaves the cache as it was before the
    two requests, apart from any older entry under that id, which is gone. *)
Theorem create_then_delete_restores_cache (db db' : Store) (r1 r2 : Request)
        (c : gmap Z Item) (item : Item) (N n : Z) :
  Method r1 = MethodPost ->
  json.Decode (Body r1) zero_Item = inr item ->
  db (QueryRow_ScanID insert_query [ArgString (Title item)]) = inr N ->
  pg_integer N = true ->
  Method r2 = MethodDelete ->
  Query_Get (URL_Query r2) "id" = strconv.FormatInt N ->
  db' (Exec delete_query [ArgInt64 N]) = inr n ->
  let out1 := serve db itemsHandler r1 c in
  let out2 := serve db' itemsHandler r2 (cache_after out1) in
  cache_after out1 !! N = Some {| ID := N; Title := Title item |}
  /\ cache_after out2 = delete N c
  /\ (c !! N = None -> cache_after out2 = c).
Proof.
  intros Hpost Hdec Hins HN Hdel Hid Hdb out1 out2. subst out1 out2.
  apply pg_integer_range in HN.
  rewrite (serve_route _ _ _ _ _ (itemsHandler_POST r1 Hpost)), serve_createItem.
  cbv zeta. rewrite Hdec, Hins. cbn [cache_after].
  rewrite (serve_route _ _ _ _ _ (itemsHandler_DELETE r2 Hdel)), serve_deleteItem.
  cbv zeta. rewrite Hid, (strconv_facts.ParseInt_FormatInt N HN). cbn [fst].
  rewrite Hdb. cbn [cache_after].
  rewrite lookup_insert_eq, delete_insert_eq.
  split; [reflexivity |]. split; [reflexivity |].
  intros Habsent. apply delete_id, Habsent.
Qed.

Lemma create_then_delete_restores_cache_witness :
  let c : gmap Z Item := <[7 := {| ID := 7; Title := "seven" |}]> ∅ in
  let out1 := serve one_row_store itemsHandler (POST (title_body "eight")) c in
  cache_after (serve (empty_store 9) itemsHandler (DELETE "8") (cache_after out1)) = c.
Proof.
  intros c out1.
  exact (proj2 (proj2
           (create_then_delete_restores_cache one_row_store (empty_store 9)
              (POST (title_body "eight")) (DELETE "8") c {| ID := 0; Title := "eight" |} 8 0
              eq_refl eq_refl eq_refl eq_refl eq_refl eq_refl eq_refl)) eq_refl).
Defined.

(** ** The body as JSON *)



(** ** The range of the cache keys *)

Lemma digit_loop_nonneg base0 base cutoff maxVal s :
  forall n u n' u',
    0 <= n ->
    strconv.digit_loop base0 base cutoff maxVal s n u = strconv.LoopDone n' u' ->
    0 <= n'.
Proof.
  induction s as [| ch s IH]; intros n u n' u' Hn; cbn [strconv.digit_loop].
  - intros [= <- _]. exact Hn.
  - destruct (_ && base0); [apply IH; exact Hn |].
    destruct (strconv.digit_val _) as [d |]; [| discriminate].
    destruct (d >=? base); [discriminate |].
    destruct (n >=? cutoff); [discriminate |].
    destruct (_ || _); [discriminate |].
    apply IH. unfold strconv.uint64. apply Z.mod_pos_bound. reflexivity.
Qed.

Lemma ParseUint_nonneg s : 0 <= (strconv.ParseUint s 0 32).1.
Proof.
  unfold strconv.ParseUint.
  destruct (String.eqb s ""); [cbn; lia |].
  destruct (if (2 <=? 0) && (0 <=? 36) then _ else _) as [[base s'] |]; [| cbn; lia].
  destruct ((32 <? 0) || (32 >? 64)); [cbn; lia |].
  destruct (strconv.digit_loop _ _ _ _ _ _ _) as [n u | |] eqn:E.
  - destruct (u && _); [cbn; lia |]. cbn [fst].
    eapply digit_loop_nonneg; [| exact E]. lia.
  - cbn; lia.
  - cbn [fst]. unfold strconv.uint64 at 1. apply Z.mod_pos_bound. reflexivity.
Qed.

(** The value of [ParseInt(s, 0, 32)] is a 32-bit integer, error or not. *)
Lemma ParseInt_range s : pg_integer (strconv.ParseInt s 0 32).1 = true.
Proof.
  assert (H : - 2 ^ 31 <= (strconv.ParseInt s 0 32).1 < 2 ^ 31).
  { unfold strconv.ParseInt.
    destruct (String.eqb s ""); [cbn; lia |].
    destruct (if strconv.at_ s 0 =? _ then _ else _) as [neg s'].
    pose proof (ParseUint_nonneg s') as Hun.
    destruct (strconv.ParseUint s' 0 32) as [un err]. cbn [fst] in Hun.
    assert (Hcut : 2 ^ ((if 32 =? 0 then 64 else 32) - 1) = 2 ^ 31) by reflexivity.
    destruct err as [[] |]; cbv beta iota; try (cbn; lia); rewrite ?Hcut;
      destruct neg; cbn [negb andb];
      try (destruct (Z.geb_spec un (2 ^ 31)); cbn [fst]; lia);
      try (destruct (Z.gtb_spec un (2 ^ 31)); cbn [fst]; lia). }
  unfold pg_integer. apply andb_true_intro. split; [apply Z.leb_le | apply Z.ltb_lt]; lia.
Qed.

(** X15: the cache keys the handlers compute from the query string are
    32-bit integers.  An entry under any other key is never removed by a
    DELETE, and a cache that holds entries under such keys only never
    answers a single-item read: the SELECT is sent every time. *)
Theorem cache_keys_beyond_32_bits_are_out_of_reach (db : Store) (r : Request)
        (c : gmap Z Item) :
  let id := Query_Get (URL_Query r) "id" in
  (forall k, pg_integer k = false ->
     cache_after (serve db deleteItem r c) !! k = c !! k)
  /\ ((forall k, pg_integer k = true -> c !! k = None) ->
      sent (serve db getItem r c) = [QueryRow_ScanItem select_query [ArgString id]]).
Proof.
  intros id. split.
  - intros k Hk. rewrite serve_deleteItem. cbv zeta. fold id.
    pose proof (ParseInt_range id) as Hrange.
    destruct (db _); cbn [cache_after]; [reflexivity |].
    apply lookup_delete_ne. intros Heq. rewrite Heq, Hk in Hrange. discriminate.
  - intros Hc. rewrite serve_getItem. cbv zeta. fold id.
    rewrite (Hc _ (ParseInt_range id)). destruct (db _); reflexivity.
Qed.

Lemma cache_keys_beyond_32_bits_are_out_of_reach_witness :
  let c : gmap Z Item := <[2147483648 := {| ID := 2147483648; Title := "big" |}]> ∅ in
  cache_after (serve (empty_store 1) deleteItem (DELETE "2147483648") c) !! 2147483648
  = Some {| ID := 2147483648; Title := "big" |}.
Proof.
  intros c.
  exact (proj1 (cache_keys_beyond_32_bits_are_out_of_reach (empty_store 1)
                  (DELETE "2147483648") c) 2147483648 eq_refl).
Defined.

(** ** The handlers with and without the cache *)

(** X16: the cache changes neither what is asked of the store nor what is
    answered, for creating and for updating: against the same store the
    handlers with the cache send the same statements and give the same
    response as the handlers without it.  The same holds for a single-item
    read that misses the cache; a read that hits it sends nothing, where the
    handler without the cache always sends the SELECT. *)
Theorem cached_handlers_agree_with_uncached (db : Store) (r : Request) (c : gmap Z Item) :
  let id := Query_Get (URL_Query r) "id" in
  let agree (h h' : Request -> M unit) :=
    response (serve db h r c) = response (serve db h' r c)
    /\ sent (serve db h r c) = sent (serve db h' r c) in
  agree createItem part_000.createItem
  /\ agree updateItem part_000.updateItem
  /\ (c !! (strconv.ParseInt id 0 32).1 = None -> agree getItem part_000.getItem)
  /\ (is_Some (c !! (strconv.ParseInt id 0 32).1) ->
      sent (serve db getItem r c) = []
      /\ sent (serve db part_000.getItem r c) = [QueryRow_ScanItem select_query [ArgString id]]).
Proof.
  intros id agree. subst agree. cbv beta.
  split; [| split; [| split]].
  - rewrite serve_createItem. unfold serve, part_000.createItem.
    destruct (json.Decode (Body r) zero_Item) as [err | item]; [split; reflexivity |].
    unfold_M. unfold insert_query. cbv zeta.
    destruct (db _) as [err | n]; split; reflexivity.
  - rewrite serve_updateItem. unfold serve, part_000.updateItem. cbv zeta.
    destruct (json.Decode (Body r) zero_Item) as [err | item]; [split; reflexivity |].
    unfold_M. unfold update_query.
    destruct (db _) as [err | n]; split; reflexivity.
  - intros Hmiss. rewrite serve_getItem. cbv zeta. fold id. rewrite Hmiss.
    unfold serve, part_000.getItem. cbv zeta. fold id. unfold_M. unfold select_query.
    destruct (db _) as [err | item]; [destruct (is_ErrNoRows err) |]; split; reflexivity.
  - intros [hit Hhit]. rewrite serve_getItem. cbv zeta. fold id. rewrite Hhit.
    split; [reflexivity |].
    unfold serve, part_000.getItem. cbv zeta. fold id. unfold_M. unfold select_query.
    destruct (db _) as [err | item]; [destruct (is_ErrNoRows err) |]; reflexivity.
Qed.

Lemma cached_handlers_agree_with_uncached_witness :
  response (serve one_row_store getItem (GET "7") ∅)
  = response (serve one_row_store part_000.getItem (GET "7") ∅).
Proof.
  exact (proj1 (proj1 (proj2 (proj2
           (cached_handlers_agree_with_uncached one_row_store (GET "7") ∅))) eq_refl)).
Defined.

(** ** Process start *)







(** ** What stays in the cache *)

(** X19: nothing but a DELETE takes an entry out of the cache: after a
    request of any other method every key that had an entry still has one;
    and a DELETE adds none: every key with an entry after it had one before. *)
Theorem only_delete_evicts (db : Store) (r : Request) (c : gmap Z Item) (k : Z) :
  let out := serve db itemsHandler r c in
  (Method r <> MethodDelete -> is_Some (c !! k) -> is_Some (cache_after out !! k))
  /\ (Method r = MethodDelete -> is_Some (cache_after out !! k) -> is_Some (c !! k)).
Proof.
  intros out. subst out. split.
  - intros Hnot Hin. by_route r; try contradiction; by_outcome; cbn [cache_after];
      try exact Hin; apply lookup_insert_is_Some'; right; exact Hin.
  - intros Hdel. by_route r; try (rewrite Hdel in *; discriminate);
      by_outcome; cbn [cache_after]; try (intros H; exact H).
    intros H. apply lookup_delete_is_Some in H. exact (proj2 H).
Qed.

Lemma only_delete_evicts_witness :
  let c : gmap Z Item := <[7 := {| ID := 7; Title := "seven" |}]> ∅ in
  is_Some (cache_after (serve one_row_store itemsHandler (PUT "7" (title_body "new")) c) !! 7).
Proof.
  intros c.
  apply (proj1 (only_delete_evicts one_row_store (PUT "7" (title_body "new")) c 7)).
  - discriminate.
  - exists {| ID := 7; Title := "seven" |}. reflexivity.
Defined.
